(** * cortical-thickness: the VAE models, the data splitter and the sweep

    A shallow embedding of [models/vae_models.py] and [utils.py], with the
    parameter-grid sweep of [latent_dimensionality_exploration.py].

    Tensors hold real numbers (exact arithmetic instead of float32); a
    rank-2 tensor is a list of rows.  The table read from the CSV file holds
    rationals, as decimal literals are. *)

From Stdlib Require Import Reals Lra Lia QArith Qround Qreals ZArith List String.
From Stdlib Require Import FunctionalExtensionality Sorted.
From stdpp Require Import base option list gmap strings.

(** ** Tensor operations of TensorFlow used by the sources *)

Module Tf.

Local Open Scope R_scope.

(** A rank-2 tensor, row after row ([axis=0] runs over the batch). *)
Definition Matrix := list (list R).

(** The result of a loss function: a tensor of rank 0, 1 or 2. *)
Inductive Tensor :=
| T0 (v : R)
| T1 (v : list R)
| T2 (v : Matrix).

Fixpoint zip_with_R (f : R -> R -> R) (a b : list R) : list R :=
  match a, b with
  | x :: a', y :: b' => f x y :: zip_with_R f a' b'
  | _, _ => nil
  end.

(** Elementwise binary operation on two tensors of one shape. *)
Fixpoint elementwise (f : R -> R -> R) (a b : Matrix) : Matrix :=
  match a, b with
  | r :: a', s :: b' => zip_with_R f r s :: elementwise f a' b'
  | _, _ => nil
  end.

(** Elementwise unary operation, also a scalar broadcast such as [0.5 * t]. *)
Definition pointwise (f : R -> R) (a : Matrix) : Matrix := map (map f) a.

Definition shape (a : Matrix) : list nat := map (@length R) a.

Definition sum_list (l : list R) : R := fold_right Rplus 0 l.

(** [tf.reduce_sum(t, axis=1)] *)
Definition reduce_sum_axis1 (a : Matrix) : list R := map sum_list a.

(** [tf.reduce_mean] of a rank-1 tensor. TensorFlow yields NaN for no
    element; the quotient by zero here is R's. *)
Definition reduce_mean1 (l : list R) : R := sum_list l / INR (length l).

(** [tf.reduce_mean(t)] over all elements. *)
Definition reduce_mean (t : Tensor) : R :=
  match t with
  | T0 v => v
  | T1 v => reduce_mean1 v
  | T2 v => reduce_mean1 (concat v)
  end.

Definition square (x : R) : R := x * x.

(** [tf.concat([a, b], axis=1)], also [np.concatenate((a, b), axis=1)] *)
Fixpoint concat_axis1 {A : Type} (a b : list (list A)) : list (list A) :=
  match a, b with
  | r :: a', s :: b' => (r ++ s) :: concat_axis1 a' b'
  | _, _ => nil
  end.

(** [tf.split(t, num_or_size_splits=2, axis=1)]: the two halves of every
    row. TensorFlow refuses an odd width. *)
Definition split2_axis1 (a : Matrix) : Matrix * Matrix :=
  (map (fun r => firstn (Nat.div2 (length r)) r) a,
   map (fun r => skipn (Nat.div2 (length r)) r) a).

(** [tf.shape(t)[0]] and [tf.shape(t)[1]]; with no row the width read here
    is 0, and no element depends on it. *)
Definition shape0 (a : Matrix) : nat := length a.
Definition shape1 (a : Matrix) : nat := length (hd nil a).

(** A tensor of the given shape filled from a source of values: the model
    of [random_normal(shape=(batch, dim))], whose draws are [noise i j]. *)
Definition tensor_of (batch dim : nat) (noise : nat -> nat -> R) : Matrix :=
  map (fun i => map (fun j => noise i j) (seq 0 dim)) (seq 0 batch).

End Tf.

(** ** The Keras layers the models are built from *)

Module Keras.

Import Tf.
Local Open Scope R_scope.

(** The activation and initializer names that occur. *)
Inductive Activation := linear | selu | softmax.
Inductive Initializer := lecun_normal | glorot_uniform | zeros.

(** [keras.layers.Dense(units, activation=..., kernel_initializer=...,
    bias_initializer=..., kernel_regularizer=keras.regularizers.l2(c))]:
    the layer as configured; [kernel_regularizer] holds the l2 coefficient. *)
Record Dense := {
  units : nat;
  activation : Activation;
  kernel_initializer : Initializer;
  bias_initializer : Initializer;
  kernel_regularizer : option Q
}.

(** The trainable variables of a Dense layer: [kernel i j] is the weight from
    input [i] to unit [j]. Keras builds them for the width of the first
    input. *)
Record DenseWeights := {
  kernel : nat -> nat -> R;
  bias : nat -> R
}.

Definition selu_alpha : R := 1.6732632423543772.
Definition selu_scale : R := 1.0507009873554805.

Definition selu_fn (x : R) : R :=
  selu_scale * (if Rlt_dec 0 x then x else selu_alpha * (exp x - 1)).

(** softmax over the last axis *)
Definition softmax_fn (r : list R) : list R :=
  let e := map exp r in
  map (fun v => v / sum_list e) e.

Definition apply_activation (a : Activation) (r : list R) : list R :=
  match a with
  | linear => r
  | selu => map selu_fn r
  | softmax => softmax_fn r
  end.

Fixpoint dot_from (i : nat) (x : list R) (k : nat -> R) : R :=
  match x with
  | nil => 0
  | v :: x' => v * k i + dot_from (S i) x' k
  end.

(** [inputs @ kernel + bias] for one row. *)
Definition affine (l : Dense) (w : DenseWeights) (x : list R) : list R :=
  map (fun j => dot_from 0 x (fun i => kernel w i j) + bias w j) (seq 0 (units l)).

(** [layer(x)] *)
Definition dense_call (l : Dense) (w : DenseWeights) (inputs : Matrix) : Matrix :=
  map (fun x => apply_activation (activation l) (affine l w x)) inputs.

(** [for layer in layers: x = layer(x)], the weights of the layer at
    position [i] being [ws i]. *)
Fixpoint run_layers (layers : list Dense) (ws : nat -> DenseWeights) (i : nat)
    (x : Matrix) : Matrix :=
  match layers with
  | nil => x
  | l :: layers' => run_layers layers' ws (S i) (dense_call l (ws i) x)
  end.


End Keras.

(** ** models/vae_models.py *)

Module VaeModels.

Import Tf Keras.
Local Open Scope R_scope.

(** A value of a [get_config] dictionary. *)
Inductive CfgVal :=
| CInts (v : list nat)
| CInt (v : nat)
| CFloat (v : Q).

Definition as_ints (c : CfgVal) : option (list nat) :=
  match c with CInts v => Some v | _ => None end.
Definition as_int (c : CfgVal) : option nat :=
  match c with CInt v => Some v | _ => None end.
Definition as_float (c : CfgVal) : option Q :=
  match c with CFloat v => Some v | _ => None end.

Module VAEEncoder.

Record t := {
  hidden_dim : list nat;
  latent_dim : nat;
  y_dim : nat;
  l2_reg : Q;
  hidden_layers : list Dense;
  y_layer : Dense;
  latent_layer : Dense
}.

Record Weights := {
  hidden_w : nat -> DenseWeights;
  y_w : DenseWeights;
  latent_w : DenseWeights
}.

Definition __init__ (hidden_dim : list nat) (latent_dim y_dim : nat) (l2_reg : Q) : t :=
  {| hidden_dim := hidden_dim;
     latent_dim := latent_dim;
     y_dim := y_dim;
     l2_reg := l2_reg;
     hidden_layers :=
       map (fun h_dim =>
              {| units := h_dim; activation := selu;
                 kernel_initializer := lecun_normal; bias_initializer := zeros;
                 kernel_regularizer := Some l2_reg |}) hidden_dim;
     y_layer :=
       {| units := y_dim; activation := softmax;
          kernel_initializer := lecun_normal; bias_initializer := zeros;
          kernel_regularizer := None |};
     latent_layer :=
       {| units := latent_dim * 2; activation := selu;
          kernel_initializer := lecun_normal; bias_initializer := zeros;
          kernel_regularizer := Some l2_reg |} |}.

(** [call(inputs)]; [noise i j] is the standard-normal draw for example [i]
    and latent dimension [j]. Returns [(z_mean, z_log_var, z, y)]. *)
Definition call (self : t) (w : Weights) (inputs : Matrix) (noise : nat -> nat -> R)
    : Matrix * Matrix * Matrix * Matrix :=
  let x := run_layers (hidden_layers self) (hidden_w w) 0 inputs in
  let z := dense_call (latent_layer self) (latent_w w) x in
  let '(z_mean, z_log_var) := split2_axis1 z in
  let batch := shape0 z_mean in
  let dim := shape1 z_mean in
  let epsilon := tensor_of batch dim noise in
  let z :=
    elementwise Rplus z_mean
      (elementwise Rmult (pointwise exp (pointwise (fun v => 0.5 * v) z_log_var)) epsilon) in
  let y := dense_call (y_layer self) (y_w w) x in
  (z_mean, z_log_var, z, y).

(** The output of [latent_layer] in [call], before the split. *)
Definition latent_of (self : t) (w : Weights) (inputs : Matrix) : Matrix :=
  dense_call (latent_layer self) (latent_w w)
    (run_layers (hidden_layers self) (hidden_w w) 0 inputs).

(** The four results of [call], by name. *)
Definition out_z_mean (o : Matrix * Matrix * Matrix * Matrix) : Matrix := o.1.1.1.
Definition out_z_log_var (o : Matrix * Matrix * Matrix * Matrix) : Matrix := o.1.1.2.
Definition out_y (o : Matrix * Matrix * Matrix * Matrix) : Matrix := o.2.

Definition get_config (self : t) : gmap string CfgVal :=
  <["hidden_dim" := CInts (hidden_dim self)]>
  (<["latent_dim" := CInt (latent_dim self)]>
  (<["y_dim" := CInt (y_dim self)]>
  (<["l2_reg" := CFloat (l2_reg self)]> ∅))).

(** A missing key raises KeyError; a value of the wrong kind makes the
    constructor raise. *)
Definition from_config (config : gmap string CfgVal) : option t :=
  h ← config !! "hidden_dim" ≫= as_ints;
  l ← config !! "latent_dim" ≫= as_int;
  y ← config !! "y_dim" ≫= as_int;
  r ← config !! "l2_reg" ≫= as_float;
  Some (__init__ h l y r).

End VAEEncoder.

Module VAEDecoder.

Record t := {
  hidden_dim : list nat;
  output_dim : nat;
  l2_reg : Q;
  dense_layers : list Dense
}.

Definition __init__ (hidden_dim : list nat) (output_dim : nat) (l2_reg : Q) : t :=
  {| hidden_dim := hidden_dim;
     output_dim := output_dim;
     l2_reg := l2_reg;
     dense_layers :=
       map (fun h_dim =>
              {| units := h_dim; activation := selu;
                 kernel_initializer := lecun_normal; bias_initializer := zeros;
                 kernel_regularizer := Some l2_reg |}) hidden_dim
       ++ {| units := output_dim; activation := softmax;
             kernel_initializer := glorot_uniform; bias_initializer := zeros;
             kernel_regularizer := None |} :: nil |}.

(** The weights of the layer at position [i] of [dense_layers]. *)
Definition Weights := nat -> DenseWeights.

Definition call (self : t) (w : Weights) (inputs : Matrix) : Matrix :=
  run_layers (dense_layers self) w 0 inputs.

Definition get_config (self : t) : gmap string CfgVal :=
  <["hidden_dim" := CInts (hidden_dim self)]>
  (<["output_dim" := CInt (output_dim self)]>
  (<["l2_reg" := CFloat (l2_reg self)]> ∅)).

Definition from_config (config : gmap string CfgVal) : option t :=
  h ← config !! "hidden_dim" ≫= as_ints;
  o ← config !! "output_dim" ≫= as_int;
  r ← config !! "l2_reg" ≫= as_float;
  Some (__init__ h o r).

End VAEDecoder.

(** [calc_kl_loss(mu, log_var)] *)
Definition calc_kl_loss (mu log_var : Matrix) : R :=
  let loss :=
    pointwise (fun v => -0.5 * v)
      (elementwise Rminus
         (elementwise Rminus (pointwise (fun v => 1 + v) log_var) (pointwise square mu))
         (pointwise exp log_var)) in
  let loss := reduce_mean1 (reduce_sum_axis1 loss) in
  loss.

Module VAE.

Record Weights := {
  encoder_w : VAEEncoder.Weights;
  decoder_w : VAEDecoder.Weights
}.

(** The optimizer as the training step uses it: its learning rate, and the
    update of the trainable weights by the gradient of a loss, given as
    the function of the weights that the tape recorded. *)
Record Optimizer := {
  lr : R;
  apply_gradients : (Weights -> R) -> Weights -> Weights
}.

Record t := {
  encoder : VAEEncoder.t;
  decoder : VAEDecoder.t;
  reconstruction_loss_fn : option (Matrix -> Matrix -> R);
  kl_loss_fn : option (Matrix -> Matrix -> Tensor);
  y_loss_fn : option (Matrix -> Matrix -> R);
  optimizer : option Optimizer
}.

Definition __init__ (encoder : VAEEncoder.t) (decoder : VAEDecoder.t) : t :=
  {| encoder := encoder;
     decoder := decoder;
     reconstruction_loss_fn := None;
     kl_loss_fn := None;
     y_loss_fn := None;
     optimizer := None |}.

(** [compile(optimizer, reconstruction_loss_fn, kl_loss_fn, y_loss_fn)] *)
Definition compile (self : t) (optimizer : Optimizer)
    (reconstruction_loss_fn : Matrix -> Matrix -> R)
    (kl_loss_fn : Matrix -> Matrix -> Tensor)
    (y_loss_fn : Matrix -> Matrix -> R) : t :=
  {| encoder := encoder self;
     decoder := decoder self;
     reconstruction_loss_fn := Some reconstruction_loss_fn;
     kl_loss_fn := Some kl_loss_fn;
     y_loss_fn := Some y_loss_fn;
     optimizer := Some optimizer |}.

(** The default of [compile]'s [kl_loss_fn] argument. *)
Definition default_kl_loss_fn (mu log_var : Matrix) : Tensor :=
  T0 (calc_kl_loss mu log_var).

(** [call(data)], returning [(z_mean, z_log_var, z, y_hat, x_reconstructed)]. *)
Definition call (self : t) (w : Weights) (data : Matrix * Matrix)
    (noise : nat -> nat -> R) : Matrix * Matrix * Matrix * Matrix * Matrix :=
  let '(x, y) := data in
  let '(z_mean, z_log_var, z, y_hat) :=
    VAEEncoder.call (encoder self) (encoder_w w) x noise in
  let x_reconstructed :=
    VAEDecoder.call (decoder self) (decoder_w w) (concat_axis1 z y) in
  (z_mean, z_log_var, z, y_hat, x_reconstructed).

(** The dictionary [train_step] returns. *)
Record Metrics := {
  m_reconstruction_loss : R;
  m_kl_loss : R;
  m_y_loss : R;
  m_total_loss : R;
  m_lr : R
}.

(** The body of the [with tf.GradientTape()] block, at weights [w]:
    [(reconstruction_loss, kl_loss, y_loss, total_loss)]. *)
Definition taped_losses (self : t)
    (rl : Matrix -> Matrix -> R) (kl : Matrix -> Matrix -> Tensor)
    (yl : Matrix -> Matrix -> R)
    (batch_data : Matrix * Matrix) (noise : nat -> nat -> R) (w : Weights)
    : R * R * R * R :=
  let '(x, y) := batch_data in
  let '(z_mean, z_log_var, z, y_hat, x_reconstructed) := call self w batch_data noise in
  let reconstruction_loss := rl x x_reconstructed in
  let kl_loss := reduce_mean (kl z_mean z_log_var) in
  let y_loss := yl y y_hat in
  let total_loss := reconstruction_loss + kl_loss + y_loss in
  (reconstruction_loss, kl_loss, y_loss, total_loss).

(** [train_step(batch_data)]: the reported metrics and the weights after
    the update. A model that was not compiled has no loss functions and no
    optimizer, and the step raises. *)
Definition train_step (self : t) (w : Weights) (batch_data : Matrix * Matrix)
    (noise : nat -> nat -> R) : option (Metrics * Weights) :=
  rl ← reconstruction_loss_fn self;
  kl ← kl_loss_fn self;
  yl ← y_loss_fn self;
  opt ← optimizer self;
  let '(reconstruction_loss, kl_loss, y_loss, total_loss) :=
    taped_losses self rl kl yl batch_data noise w in
  let w' :=
    apply_gradients opt
      (fun v => snd (taped_losses self rl kl yl batch_data noise v)) w in
  Some ({| m_reconstruction_loss := reconstruction_loss;
           m_kl_loss := kl_loss;
           m_y_loss := y_loss;
           m_total_loss := total_loss;
           m_lr := lr opt |}, w').


Definition get_config (self : t) : gmap string (gmap string CfgVal) :=
  <["encoder_config" := VAEEncoder.get_config (encoder self)]>
  (<["decoder_config" := VAEDecoder.get_config (decoder self)]> ∅).

Definition from_config (config : gmap string (gmap string CfgVal)) : option t :=
  encoder ← config !! "encoder_config" ≫= VAEEncoder.from_config;
  decoder ← config !! "decoder_config" ≫= VAEDecoder.from_config;
  Some (__init__ encoder decoder).

End VAE.

(** The KL term of one example as the specification words it:
    -0.5 times the sum over the latent dimensions of
    1 + logvar - mean^2 - exp(logvar). *)
Definition spec_kl_per_example (mean logvar : list R) : R :=
  -0.5 * sum_list (zip_with_R (fun m lv => 1 + lv - m * m - exp lv) mean logvar).

Fixpoint spec_kl_rows (mean logvar : Matrix) : list R :=
  match mean, logvar with
  | m :: mean', lv :: logvar' => spec_kl_per_example m lv :: spec_kl_rows mean' logvar'
  | _, _ => nil
  end.

End VaeModels.

(** ** The pandas, NumPy and scikit-learn operations that utils.py calls *)

Module Np.

(** [a[indices, :]] with a list of positions; a position out of range
    raises IndexError. The same for [df.loc[labels]] on the default
    [RangeIndex], where a label is a position and a missing one raises
    KeyError. *)
Definition take {A : Type} (a : list A) (indices : list nat) : option (list A) :=
  mapM (fun i => a !! i) indices.

(** [a[mask, :]] and [df.loc[mask]] with a boolean mask of the length of [a]. *)
Fixpoint boolean_mask {A : Type} (mask : list bool) (a : list A) : list A :=
  match mask, a with
  | b :: mask', x :: a' => if b then x :: boolean_mask mask' a' else boolean_mask mask' a'
  | _, _ => nil
  end.

(** [index.isin(values)] *)
Definition isin (index values : list nat) : list bool :=
  map (fun i => bool_decide (i ∈ values)) index.

(** [~mask] *)
Definition invert (mask : list bool) : list bool := map negb mask.

(** [.astype('float32')], and the conversion of a table to a float array. *)
Definition to_float (a : list (list Q)) : Tf.Matrix := map (map Q2R) a.

(** [round(0)] of one value: to the nearest integer, a tie to the even one. *)
Definition round0 (q : Q) : Z :=
  let f := Qfloor q in
  match Qcompare (q - inject_Z f) (1 # 2) with
  | Lt => f
  | Gt => (f + 1)%Z
  | Eq => if Z.even f then f else (f + 1)%Z
  end.

End Np.

Module Sklearn.

Import Tf.

(** The input validation of the estimators: at least one sample and at
    least one feature, or ValueError. *)
Definition check_array {A : Type} (X : list (list A)) : bool :=
  negb (Nat.eqb (length X) 0) && negb (Nat.eqb (length (hd nil X)) 0).

Section OneHotEncoder.

Context {A : Type} (eqb leb : A -> A -> bool).

Fixpoint insert_category (v : A) (cats : list A) : list A :=
  match cats with
  | nil => v :: nil
  | c :: cats' =>
      if eqb v c then cats
      else if leb v c then v :: cats
      else c :: insert_category v cats'
  end.

(** The order of [categories_]: strictly ascending. *)
Definition category_lt (a b : A) : Prop := leb a b = true /\ a <> b.

(** [categories_]: the distinct values of the column, sorted. *)
Definition categories_ (col : list A) : list A :=
  fold_right insert_category nil col.

Definition one_hot (cats : list A) (v : A) : list Q :=
  map (fun c => if eqb c v then 1%Q else 0%Q) cats.

(** [OneHotEncoder(sparse_output=False).fit_transform(col.reshape(-1, 1))] *)
Definition onehot_fit_transform (col : list A) : option (list (list Q)) :=
  match col with
  | nil => None
  | _ => Some (map (one_hot (categories_ col)) col)
  end.

End OneHotEncoder.

Local Open Scope R_scope.

(** The fitted attributes of a [StandardScaler]. *)
Record StandardScaler := {
  mean_ : list R;
  var_ : list R;
  scale_ : list R
}.

Definition column (X : Matrix) (j : nat) : list R := map (fun r => nth j r 0) X.

Definition col_mean (c : list R) : R := sum_list c / INR (length c).

Definition col_var (c : list R) : R :=
  sum_list (map (fun v => square (v - col_mean c)) c) / INR (length c).

(** A zero variance is scaled by 1. *)
Definition scale_of_var (v : R) : R := if Req_dec_T v 0 then 1 else sqrt v.

(** [scaler.fit(X)] *)
Definition fit (X : Matrix) : option StandardScaler :=
  if check_array X then
    let cols := map (column X) (seq 0 (length (hd nil X))) in
    Some {| mean_ := map col_mean cols;
            var_ := map col_var cols;
            scale_ := map (fun c => scale_of_var (col_var c)) cols |}
  else None.

Fixpoint scale_row (x m s : list R) : list R :=
  match x, m, s with
  | v :: x', mu :: m', sd :: s' => (v - mu) / sd :: scale_row x' m' s'
  | _, _, _ => nil
  end.

(** The arithmetic of [transform]: every row minus [mean_], over [scale_]. *)
Definition scale_rows (self : StandardScaler) (X : Matrix) : Matrix :=
  map (fun x => scale_row x (mean_ self) (scale_ self)) X.

(** [scaler.transform(X)]: X is validated and must have the number of
    features seen by [fit]. *)
Definition transform (self : StandardScaler) (X : Matrix) : option Matrix :=
  if check_array X && Nat.eqb (length (hd nil X)) (length (mean_ self))
  then Some (scale_rows self X)
  else None.

(** [scaler.fit_transform(X)] *)
Definition fit_transform (X : Matrix) : option (StandardScaler * Matrix) :=
  self ← fit X;
  X' ← transform self X;
  Some (self, X').


Section TrainTestSplit.

(** [permutation n]: the shuffle of the positions below [n] drawn by the
    generator seeded with [random_state]. *)
Variable permutation : nat -> list nat.


End TrainTestSplit.

End Sklearn.

(** ** utils.py *)

Module Utils.

Import Tf Np Sklearn.

(** One line of the table read by [pd.read_csv]: the columns the functions
    name, and [cells], the values of the columns that [generate_data] keeps
    (all but age, sex, scanner, euler, BrainSegVolNotVent, euler_med,
    sample, dcode and timepoint). *)
Record Row := {
  age : Q;
  sex : string;
  dcode : Z;
  cells : list Q
}.

(** The table; [columns] names the kept columns, in the order of [cells]. *)
Record DataFrame := {
  columns : list string;
  rows : list Row
}.

(** [db.index]: read_csv numbers the lines from 0. *)
Definition index (db : DataFrame) : list nat := seq 0 (length (rows db)).

(** [db[db['dcode'] == 0].index] *)
Definition condition_indices_of (db : DataFrame) : list nat :=
  boolean_mask (map (fun r => Z.eqb (dcode r) 0) (rows db)) (index db).

(** [db.drop([...], axis=1)] *)
Definition drop_named (db : DataFrame) : list (list Q) := map cells (rows db).

(** [np.concatenate((one_hot_age, one_hot_sex), axis=1).astype('float32')]
    of the two fitted encodings. *)
Definition labels_of (db : DataFrame) : option Matrix :=
  one_hot_sex ← onehot_fit_transform String.eqb String.leb (map sex (rows db));
  let age := map (fun r => round0 (age r)) (rows db) in
  one_hot_age ← onehot_fit_transform Z.eqb Z.leb age;
  Some (to_float (concat_axis1 one_hot_age one_hot_sex)).

(** [generate_data(filepath)] on the table read from the file:
    [(train_x_norm, train_y, test_x_norm, test_y)]. *)
Definition generate_data (db : DataFrame)
    : option (Matrix * Matrix * Matrix * Matrix) :=
  y_data ← labels_of db;
  let condition_indices := condition_indices_of db in
  let dropped := drop_named db in
  train_x ← take dropped condition_indices;
  let test_x := boolean_mask (invert (isin (index db) condition_indices)) dropped in
  '(scaler, train_x_norm) ← fit_transform (to_float train_x);
  test_x_norm ← transform scaler (to_float test_x);
  train_y ← take y_data condition_indices;
  let test_y := boolean_mask (invert (isin (index db) condition_indices)) y_data in
  Some (train_x_norm, train_y, test_x_norm, test_y).

(** [col.endswith(suffix)] *)
Definition endswith (col suffix : string) : bool :=
  let n := String.length col in
  let k := String.length suffix in
  Nat.leb k n && String.eqb (substring (n - k) k col) suffix.

(** [[col for col in db.columns if col.endswith('_thickness')]]; none of
    the nine named columns has the suffix. *)
Definition thickness_columns (db : DataFrame) : list string :=
  List.filter (fun col => endswith col "_thickness") (columns db).

(** [db[thickness_columns]] *)
Definition thickness_data (db : DataFrame) : list (list Q) :=
  map (fun r =>
         boolean_mask (map (fun col => endswith col "_thickness") (columns db)) (cells r))
      (rows db).

(** [tf.data.Dataset.from_tensor_slices((x, y))]: the pairs of rows; the
    two tensors must have one length. *)
Definition from_tensor_slices (x y : Matrix) : option (list (list R * list R)) :=
  if Nat.eqb (length x) (length y) then Some (combine x y) else None.

Section ThicknessOnly.

(** The shuffle drawn by [train_test_split] with [random_state=42]. *)
Variable permutation : nat -> list nat.


End ThicknessOnly.


(** [data_train_test(filepath)]: [(train, test)]. *)
Definition data_train_test (db : DataFrame)
    : option (list (list R * list R) * list (list R * list R)) :=
  '(train_x, train_y, test_x, test_y) ← generate_data db;
  train ← from_tensor_slices train_x train_y;
  test ← from_tensor_slices test_x test_y;
  Some (train, test).

Section DataValidation.

(** The shuffle drawn by [train_test_split]; no seed is given here. *)
Variable permutation : nat -> list nat.


End DataValidation.

(** [generate_feature_names(filepath)]: the names of the columns left by
    the drop. *)
Definition generate_feature_names (db : DataFrame) : list string := columns db.

(** A table as read_csv builds it: every line has one cell per kept
    column. *)
Definition rectangular (db : DataFrame) : bool :=
  forallb (fun r => Nat.eqb (length (cells r)) (length (columns db))) (rows db).

(** The two pools in the words of the specification: the rows whose
    [dcode] is 0, and all the others. *)
Definition spec_train_pool {A : Type} (db : DataFrame) (a : list A) : list A :=
  boolean_mask (map (fun r => Z.eqb (dcode r) 0) (rows db)) a.

Definition spec_test_pool {A : Type} (db : DataFrame) (a : list A) : list A :=
  boolean_mask (map (fun r => negb (Z.eqb (dcode r) 0)) (rows db)) a.

(** A small table: two lines of the condition group and one other. *)
Definition sample_table : DataFrame :=
  {| columns := "lh_bankssts_thickness" :: "lh_bankssts_volume" :: nil;
     rows :=
       {| age := 304 # 10; sex := "F"; dcode := 0; cells := (25 # 10) :: (1200 # 1) :: nil |}
       :: {| age := 415 # 10; sex := "M"; dcode := 1; cells := (21 # 10) :: (1100 # 1) :: nil |}
       :: {| age := 306 # 10; sex := "F"; dcode := 0; cells := (27 # 10) :: (1300 # 1) :: nil |}
       :: nil |}.

End Utils.

(** ** modelUtils/vae_utils.py, as latent_dimensionality_exploration.py uses it *)

Module VaeUtils.

(** One grid point: a training configuration. *)
Record Params := {
  p_hidden_dim : list nat;
  p_latent_dim : nat;
  p_dropout : Q;
  p_activation : string;
  p_initializer : string;
  p_beta : Q
}.

(** Modelled from the spec: [create_param_grid], whose source is not at
    hand; it enumerates every combination of the hyperparameter axes
    (architecture, latent dimension, dropout, activation, initializer,
    beta). *)
Definition create_param_grid (hidden_dims : list (list nat)) (latent_dims : list nat)
    (dropout : list Q) (activations initializers : list string) (betas : list Q)
    : list Params :=
  h ← hidden_dims;
  l ← latent_dims;
  d ← dropout;
  a ← activations;
  i ← initializers;
  b ← betas;
  [{| p_hidden_dim := h; p_latent_dim := l; p_dropout := d;
      p_activation := a; p_initializer := i; p_beta := b |}].

(** [VAECrossValidator(param_grid, input_dim, k_folds, batch_size=...)] *)
Record VAECrossValidator := {
  param_grid : list Params;
  input_dim : nat;
  k_folds : nat;
  batch_size : nat
}.

Section CrossValidate.

(** The examples of the training set, and the history of one training run:
    the loss components epoch by epoch. *)
Variables Example History : Type.

(** Training a fresh VAE of one configuration on the training part of a
    fold for the given number of epochs, evaluating on the held-out part. *)
Variable fit_fold :
  Params -> nat -> nat -> list Example -> list Example -> nat -> History.

(** Modelled from the spec: the partition of the training set into k
    contiguous folds; fold [i] holds out the [i]-th chunk and trains on the
    union of the others. The first [n mod k] chunks are one longer. *)
Definition fold_start (n k i : nat) : nat := i * (n / k) + Nat.min i (n mod k).

Definition kfold (k : nat) (data : list Example) (i : nat) : list Example * list Example :=
  let n := length data in
  let lo := fold_start n k i in
  let hi := fold_start n k (S i) in
  (firstn lo data ++ skipn hi data, firstn (hi - lo) (skipn lo data)).

(** Modelled from the spec: [VAECrossValidator.cross_validate], whose source
    is not at hand; for each grid point it runs the k folds and records, per
    fold index, the training history. *)
Definition cross_validate (self : VAECrossValidator) (data : list Example) (epochs : nat)
    : list (Params * gmap nat History) :=
  map (fun params =>
         (params,
          list_to_map
            (map (fun i =>
                    let '(train, held_out) := kfold (k_folds self) data i in
                    (i, fit_fold params (input_dim self) (batch_size self)
                          train held_out epochs))
                 (seq 0 (k_folds self)))))
      (param_grid self).

End CrossValidate.

End VaeUtils.

(** * Properties *)

(** ** Tensor arithmetic *)

Module TfFacts.

Import Tf.
Local Open Scope R_scope.

Lemma sum_list_nonneg (l : list R) : Forall (fun v => 0 <= v) l -> 0 <= sum_list l.
Proof.
  induction 1 as [|x l Hx _ IH]; simpl; lra.
Qed.

Lemma sum_list_pos (l : list R) :
  l <> nil -> Forall (fun v => 0 < v) l -> 0 < sum_list l.
Proof.
  intros Hne Hall. destruct Hall as [|x l Hx Hl]; [congruence|].
  simpl. assert (0 <= sum_list l).
  { apply sum_list_nonneg. eapply Forall_impl; [exact Hl|]. simpl. intros; lra. }
  lra.
Qed.

Lemma sum_list_scale (c : R) (l : list R) :
  sum_list (map (fun v => c * v) l) = c * sum_list l.
Proof.
  induction l as [|x l IH]; simpl.
  - lra.
  - rewrite IH. lra.
Qed.

Lemma reduce_mean1_nonneg (l : list R) :
  Forall (fun v => 0 <= v) l -> 0 <= reduce_mean1 l.
Proof.
  intros H. unfold reduce_mean1.
  destruct l as [|x l].
  - simpl. lra.
  - apply Rmult_le_pos.
    + now apply sum_list_nonneg.
    + left. apply Rinv_0_lt_compat. apply lt_0_INR. simpl. lia.
Qed.



End TfFacts.

(** ** The KL term and the training loss *)

Module LossFacts.

Import Tf Keras VaeModels TfFacts.
Local Open Scope R_scope.

(** One row of the elementwise loss of [calc_kl_loss], summed, is the KL
    term of that example. *)
Lemma kl_row_sum (m lv : list R) :
  sum_list
    (map (fun v => -0.5 * v)
       (zip_with_R Rminus
          (zip_with_R Rminus (map (fun v => 1 + v) lv) (map square m))
          (map exp lv)))
  = spec_kl_per_example m lv.
Proof.
  unfold spec_kl_per_example. rewrite sum_list_scale. f_equal. f_equal.
  revert lv. induction m as [|x m IH]; intros [|v lv]; simpl; try reflexivity.
  rewrite IH. reflexivity.
Qed.

Lemma kl_rows_sum (mu log_var : Matrix) :
  reduce_sum_axis1
    (pointwise (fun v => -0.5 * v)
       (elementwise Rminus
          (elementwise Rminus (pointwise (fun v => 1 + v) log_var) (pointwise square mu))
          (pointwise exp log_var)))
  = spec_kl_rows mu log_var.
Proof.
  revert mu. induction log_var as [|lv log_var IH]; intros [|m mu]; simpl; try reflexivity.
  f_equal.
  - apply kl_row_sum.
  - apply IH.
Qed.

(** [calc_kl_loss] is the batch mean of the per-example KL terms. *)
Lemma calc_kl_loss_spec (mu log_var : Matrix) :
  calc_kl_loss mu log_var = reduce_mean1 (spec_kl_rows mu log_var).
Proof.
  unfold calc_kl_loss. now rewrite kl_rows_sum.
Qed.

Lemma spec_kl_per_example_nonneg (m lv : list R) : 0 <= spec_kl_per_example m lv.
Proof.
  unfold spec_kl_per_example.
  assert (H : sum_list (zip_with_R (fun a b => 1 + b - a * a - exp b) m lv) <= 0).
  { revert lv. induction m as [|x m IH]; intros [|v lv]; simpl; try lra.
    specialize (IH lv). pose proof (exp_ineq1_le v). nra. }
  lra.
Qed.

Lemma spec_kl_rows_nonneg (mu log_var : Matrix) :
  Forall (fun v => 0 <= v) (spec_kl_rows mu log_var).
Proof.
  revert log_var. induction mu as [|m mu IH]; intros [|lv log_var]; simpl;
    constructor; auto using spec_kl_per_example_nonneg.
Qed.

(** C3: for a batch of at least one example, with mean and log-variance
    matrices of one shape, the value of [calc_kl_loss] is at least 0. *)
Theorem calc_kl_loss_nonneg (mu log_var : Matrix) :
  mu <> nil -> shape mu = shape log_var -> 0 <= calc_kl_loss mu log_var.
Proof.
  intros _ _. rewrite calc_kl_loss_spec.
  apply reduce_mean1_nonneg, spec_kl_rows_nonneg.
Qed.

Lemma calc_kl_loss_nonneg_witness :
  0 <= calc_kl_loss ((1 :: 2 :: nil) :: nil) ((0 :: -1 :: nil) :: nil).
Proof.
  apply calc_kl_loss_nonneg.
  - discriminate.
  - reflexivity.
Defined.

(** C1: for a model compiled with [calc_kl_loss] as its KL loss, the step
    returns, and the total loss it reports is the reconstruction loss of
    the batch, plus the batch mean of the per-example KL terms with
    coefficient one, plus the classification loss. *)
Theorem train_step_total_loss
    (enc : VAEEncoder.t) (dec : VAEDecoder.t) (opt : VAE.Optimizer)
    (rl yl : Matrix -> Matrix -> R) (w : VAE.Weights) (x y : Matrix)
    (noise : nat -> nat -> R) :
  let vae := VAE.compile (VAE.__init__ enc dec) opt rl VAE.default_kl_loss_fn yl in
  let '(z_mean, z_log_var, z, y_hat, x_reconstructed) := VAE.call vae w (x, y) noise in
  exists m w',
    VAE.train_step vae w (x, y) noise = Some (m, w')
    /\ VAE.m_reconstruction_loss m = rl x x_reconstructed
    /\ VAE.m_kl_loss m = reduce_mean1 (spec_kl_rows z_mean z_log_var)
    /\ VAE.m_y_loss m = yl y y_hat
    /\ VAE.m_total_loss m
       = rl x x_reconstructed + reduce_mean1 (spec_kl_rows z_mean z_log_var) + yl y y_hat.
Proof.
  intros vae.
  destruct (VAE.call vae w (x, y) noise) as [[[[z_mean z_log_var] z] y_hat] x_rec] eqn:Hcall.
  unfold VAE.train_step. cbn [VAE.compile VAE.reconstruction_loss_fn VAE.kl_loss_fn
    VAE.y_loss_fn VAE.optimizer mbind option_bind vae].
  unfold VAE.taped_losses at 1. fold vae. rewrite Hcall.
  cbn [VAE.default_kl_loss_fn reduce_mean].
  eexists _, _. split; [reflexivity|]. cbn.
  rewrite calc_kl_loss_spec. auto.
Qed.

End LossFacts.

(** ** Shapes of the layer outputs *)

Module LayerFacts.

Import Tf Keras TfFacts.
Local Open Scope R_scope.


Lemma length_affine (l : Dense) (w : DenseWeights) (x : list R) :
  length (affine l w x) = units l.
Proof.
  unfold affine. now rewrite length_map, length_seq.
Qed.




Lemma run_layers_app (l1 l2 : list Dense) ws i (x : Matrix) :
  run_layers (l1 ++ l2) ws i x
  = run_layers l2 ws (i + length l1) (run_layers l1 ws i x).
Proof.
  revert i x. induction l1 as [|l l1 IH]; intros i x; simpl.
  - now rewrite Nat.add_0_r.
  - rewrite IH. now replace (S i + length l1)%nat with (i + S (length l1))%nat by lia.
Qed.






End LayerFacts.

(** ** The encoder *)

Module EncoderFacts.

Import Tf Keras VaeModels TfFacts LayerFacts.
Local Open Scope R_scope.

Lemma call_unfold (self : VAEEncoder.t) w inputs noise :
  let z0 := VAEEncoder.latent_of self w inputs in
  let z_mean := (split2_axis1 z0).1 in
  let z_log_var := (split2_axis1 z0).2 in
  VAEEncoder.call self w inputs noise
  = (z_mean, z_log_var,
     elementwise Rplus z_mean
       (elementwise Rmult (pointwise exp (pointwise (fun v => 0.5 * v) z_log_var))
          (tensor_of (shape0 z_mean) (shape1 z_mean) noise)),
     dense_call (VAEEncoder.y_layer self) (VAEEncoder.y_w w)
       (run_layers (VAEEncoder.hidden_layers self) (VAEEncoder.hidden_w w) 0 inputs)).
Proof. reflexivity. Qed.






(** C6 (the code departs from it): the layer that yields the latent mean
    and log-variance is built with the selu activation, not a linear one;
    the layer of the class prediction is built with softmax. With a zero
    kernel and a bias of -2 the layer's affine map gives -2, which a
    linear layer would return, and the encoder returns selu(-2) as the
    latent mean, which is above -1.76. *)
Theorem encoder_latent_layer_is_selu :
  (forall h l y r,
      activation (VAEEncoder.latent_layer (VAEEncoder.__init__ h l y r)) = selu
      /\ activation (VAEEncoder.y_layer (VAEEncoder.__init__ h l y r)) = softmax)
  /\ (let self := VAEEncoder.__init__ nil 1 1 (1 # 1000) in
      let dw := {| kernel := fun _ _ => 0; bias := fun _ => -2 |} in
      let w := {| VAEEncoder.hidden_w := fun _ => dw;
                  VAEEncoder.y_w := dw; VAEEncoder.latent_w := dw |} in
      let out := VAEEncoder.call self w ((0 :: nil) :: nil) (fun _ _ => 0) in
      affine (VAEEncoder.latent_layer self) dw (0 :: nil) = -2 :: -2 :: nil
      /\ VAEEncoder.out_z_mean out = (selu_fn (-2) :: nil) :: nil
      /\ -1.76 < selu_fn (-2)
      /\ VAEEncoder.out_z_mean out <> (-2 :: nil) :: nil).
Proof.
  split; [intros; split; reflexivity|].
  cbv zeta.
  assert (Hv : 0 * 0 + 0 + -2 = -2) by lra.
  assert (Hs : -1.76 < selu_fn (-2)).
  { unfold selu_fn. destruct (Rlt_dec 0 (-2)) as [Hlt|_]; [lra|].
    pose proof (exp_pos (-2)) as He.
    unfold selu_scale, selu_alpha. nra. }
  assert (Hz : VAEEncoder.out_z_mean
                 (VAEEncoder.call (VAEEncoder.__init__ nil 1 1 (1 # 1000))
                    {| VAEEncoder.hidden_w := fun _ => {| kernel := fun _ _ => 0; bias := fun _ => -2 |};
                       VAEEncoder.y_w := {| kernel := fun _ _ => 0; bias := fun _ => -2 |};
                       VAEEncoder.latent_w := {| kernel := fun _ _ => 0; bias := fun _ => -2 |} |}
                    ((0 :: nil) :: nil) (fun _ _ => 0))
               = (selu_fn (-2) :: nil) :: nil).
  { change (((selu_fn (0 * 0 + 0 + -2)) :: nil) :: nil = (selu_fn (-2) :: nil) :: nil).
    now rewrite Hv. }
  split; [|split; [exact Hz|split; [exact Hs|]]].
  - change ((0 * 0 + 0 + -2) :: (0 * 0 + 0 + -2) :: nil = -2 :: -2 :: nil).
    now rewrite Hv.
  - rewrite Hz. intros [= Heq]. lra.
Qed.

End EncoderFacts.

(** ** The decoder and the composite model *)

Module DecoderFacts.

Import Tf Keras VaeModels TfFacts LayerFacts.
Local Open Scope R_scope.

Lemma elem_le_sum_list (l : list R) (x : R) :
  Forall (fun v => 0 < v) l -> In x l -> x <= sum_list l.
Proof.
  induction 1 as [|y l Hy Hl IH]; simpl; [easy|].
  assert (0 <= sum_list l).
  { apply sum_list_nonneg. eapply Forall_impl; [exact Hl|]. simpl. intros; lra. }
  intros [->|Hin]; [lra|]. specialize (IH Hin). lra.
Qed.

Lemma elem_lt_sum_list (l : list R) (x : R) :
  Forall (fun v => 0 < v) l -> (2 <= length l)%nat -> In x l -> x < sum_list l.
Proof.
  intros Hall Hlen Hin. destruct Hall as [|y l Hy Hl]; [easy|].
  simpl in *. destruct Hin as [->|Hin].
  - assert (0 < sum_list l); [|lra].
    apply sum_list_pos; [|exact Hl]. destruct l; simpl in Hlen; [lia|easy].
  - pose proof (elem_le_sum_list l x Hl Hin). lra.
Qed.

Lemma Forall_exp_pos (r : list R) : Forall (fun v => 0 < v) (map exp r).
Proof.
  induction r; simpl; constructor; auto using exp_pos.
Qed.

Lemma sum_list_div (l : list R) (s : R) :
  sum_list (map (fun v => v / s) l) = sum_list l / s.
Proof.
  induction l as [|x l IH]; simpl.
  - unfold Rdiv. lra.
  - rewrite IH. unfold Rdiv. lra.
Qed.

(** softmax gives positive components of sum one. *)
Lemma softmax_fn_simplex (r : list R) :
  length (softmax_fn r) = length r
  /\ Forall (fun c => 0 < c <= 1) (softmax_fn r)
  /\ ((2 <= length r)%nat -> Forall (fun c => c < 1) (softmax_fn r))
  /\ ((1 <= length r)%nat -> sum_list (softmax_fn r) = 1).
Proof.
  unfold softmax_fn. set (e := map exp r).
  assert (He : Forall (fun v => 0 < v) e) by apply Forall_exp_pos.
  assert (Hlen : length e = length r) by apply length_map.
  split; [now rewrite length_map|].
  destruct r as [|x r].
  { simpl. repeat split; try constructor; simpl; intros; lia. }
  assert (Hs : 0 < sum_list e).
  { apply sum_list_pos; [|exact He]. subst e. discriminate. }
  split; [|split].
  - apply List.Forall_forall. intros c Hc. apply in_map_iff in Hc as (v & <- & Hv).
    pose proof (elem_le_sum_list e v He Hv).
    assert (0 < v) by (eapply List.Forall_forall in He; eauto).
    split.
    + now apply Rdiv_lt_0_compat.
    + apply Rmult_le_reg_r with (sum_list e); [exact Hs|].
      unfold Rdiv. rewrite Rmult_assoc, Rinv_l; lra.
  - intros H2. apply List.Forall_forall. intros c Hc.
    apply in_map_iff in Hc as (v & <- & Hv).
    assert (v < sum_list e) by (apply elem_lt_sum_list; auto; lia).
    apply Rmult_lt_reg_r with (sum_list e); [exact Hs|].
    unfold Rdiv. rewrite Rmult_assoc, Rinv_l; lra.
  - intros _. rewrite sum_list_div. unfold Rdiv. apply Rinv_r. lra.
Qed.

Lemma decoder_call_unfold h o r (w : VAEDecoder.Weights) (inputs : Matrix) :
  VAEDecoder.call (VAEDecoder.__init__ h o r) w inputs
  = dense_call
      {| units := o; activation := softmax;
         kernel_initializer := glorot_uniform; bias_initializer := zeros;
         kernel_regularizer := None |}
      (w (length h))
      (run_layers
         (map (fun h_dim =>
                 {| units := h_dim; activation := selu;
                    kernel_initializer := lecun_normal; bias_initializer := zeros;
                    kernel_regularizer := Some r |}) h)
         w 0 inputs).
Proof.
  unfold VAEDecoder.call, VAEDecoder.__init__. cbn [VAEDecoder.dense_layers].
  rewrite run_layers_app. simpl. now rewrite length_map.
Qed.





End DecoderFacts.

(** ** Configuration dictionaries *)

Module ConfigFacts.

Import Keras VaeModels.

Lemma encoder_from_get_config (self : VAEEncoder.t) :
  VAEEncoder.from_config (VAEEncoder.get_config self)
  = Some (VAEEncoder.__init__ (VAEEncoder.hidden_dim self) (VAEEncoder.latent_dim self)
            (VAEEncoder.y_dim self) (VAEEncoder.l2_reg self)).
Proof. reflexivity. Qed.

Lemma decoder_from_get_config (self : VAEDecoder.t) :
  VAEDecoder.from_config (VAEDecoder.get_config self)
  = Some (VAEDecoder.__init__ (VAEDecoder.hidden_dim self) (VAEDecoder.output_dim self)
            (VAEDecoder.l2_reg self)).
Proof. reflexivity. Qed.

Lemma vae_from_get_config (self : VAE.t) :
  VAE.from_config (VAE.get_config self)
  = Some (VAE.__init__
            (VAEEncoder.__init__
               (VAEEncoder.hidden_dim (VAE.encoder self))
               (VAEEncoder.latent_dim (VAE.encoder self))
               (VAEEncoder.y_dim (VAE.encoder self))
               (VAEEncoder.l2_reg (VAE.encoder self)))
            (VAEDecoder.__init__
               (VAEDecoder.hidden_dim (VAE.decoder self))
               (VAEDecoder.output_dim (VAE.decoder self))
               (VAEDecoder.l2_reg (VAE.decoder self)))).
Proof. reflexivity. Qed.

(** C10: for each of the three models, [from_config] of [get_config]
    returns a model with the same hyperparameters and the same
    configuration; an encoder or a decoder made by its constructor is
    rebuilt as it was. *)
Theorem config_round_trip :
  (forall e : VAEEncoder.t,
      exists e',
        VAEEncoder.from_config (VAEEncoder.get_config e) = Some e'
        /\ VAEEncoder.hidden_dim e' = VAEEncoder.hidden_dim e
        /\ VAEEncoder.latent_dim e' = VAEEncoder.latent_dim e
        /\ VAEEncoder.y_dim e' = VAEEncoder.y_dim e
        /\ VAEEncoder.l2_reg e' = VAEEncoder.l2_reg e
        /\ VAEEncoder.get_config e' = VAEEncoder.get_config e)
  /\ (forall d : VAEDecoder.t,
      exists d',
        VAEDecoder.from_config (VAEDecoder.get_config d) = Some d'
        /\ VAEDecoder.hidden_dim d' = VAEDecoder.hidden_dim d
        /\ VAEDecoder.output_dim d' = VAEDecoder.output_dim d
        /\ VAEDecoder.l2_reg d' = VAEDecoder.l2_reg d
        /\ VAEDecoder.get_config d' = VAEDecoder.get_config d)
  /\ (forall m : VAE.t,
      exists m',
        VAE.from_config (VAE.get_config m) = Some m'
        /\ VAEEncoder.get_config (VAE.encoder m') = VAEEncoder.get_config (VAE.encoder m)
        /\ VAEDecoder.get_config (VAE.decoder m') = VAEDecoder.get_config (VAE.decoder m)
        /\ VAE.get_config m' = VAE.get_config m)
  /\ (forall h l y r,
      VAEEncoder.from_config (VAEEncoder.get_config (VAEEncoder.__init__ h l y r))
      = Some (VAEEncoder.__init__ h l y r))
  /\ (forall h o r,
      VAEDecoder.from_config (VAEDecoder.get_config (VAEDecoder.__init__ h o r))
      = Some (VAEDecoder.__init__ h o r))
  /\ (forall h l y r h' o r',
      let m := VAE.__init__ (VAEEncoder.__init__ h l y r) (VAEDecoder.__init__ h' o r') in
      VAE.from_config (VAE.get_config m) = Some m).
Proof.
  split; [|split; [|split; [|split; [|split]]]].
  - intros e. eexists. split; [apply encoder_from_get_config|]. now repeat split.
  - intros d. eexists. split; [apply decoder_from_get_config|]. now repeat split.
  - intros m. eexists. split; [apply vae_from_get_config|]. now repeat split.
  - intros. apply encoder_from_get_config.
  - intros. apply decoder_from_get_config.
  - intros. apply vae_from_get_config.
Qed.

End ConfigFacts.

(** ** The sweep *)

Module SweepFacts.

Import VaeUtils.

Lemma length_bind_const {A B : Type} (f : A -> list B) (l : list A) (c : nat) :
  (forall x, length (f x) = c) -> length (l ≫= f) = length l * c.
Proof.
  intros Hf. induction l as [|x l IH]; [reflexivity|].
  cbn. rewrite length_app, Hf. cbn in IH. rewrite IH. reflexivity.
Qed.

Lemma length_create_param_grid H L D A I B :
  length (create_param_grid H L D A I B)
  = length H * (length L * (length D * (length A * (length I * (length B * 1))))).
Proof.
  unfold create_param_grid.
  repeat (apply length_bind_const; intros ?). reflexivity.
Qed.

Lemma fst_indexed_map {V : Type} (F : nat -> nat * V) (l : list nat) :
  (forall i, (F i).1 = i) -> (map F l).*1 = l.
Proof.
  intros HF. induction l as [|i l IH]; [reflexivity|]. cbn. now f_equal.
Qed.

Lemma size_indexed_map {V : Type} (F : nat -> nat * V) (k : nat) :
  (forall i, (F i).1 = i) ->
  size (list_to_map (M := gmap nat V) (map F (seq 0 k))) = k.
Proof.
  intros HF. rewrite map_size_list_to_map.
  - now rewrite length_map, length_seq.
  - rewrite fst_indexed_map by exact HF. apply NoDup_seq.
Qed.

Lemma dom_indexed_map {V : Type} (F : nat -> nat * V) (k i : nat) :
  (forall i, (F i).1 = i) ->
  is_Some (list_to_map (M := gmap nat V) (map F (seq 0 k)) !! i) <-> i < k.
Proof.
  intros HF. rewrite <- elem_of_dom, dom_list_to_map_L, fst_indexed_map by exact HF.
  rewrite elem_of_list_to_set, elem_of_seq. lia.
Qed.

(** C8: the sweep over the grid built from six axes returns one entry per
    combination, that is as many as the product of the sizes of the axes,
    and every entry holds one history for each of the k fold indices. *)
Theorem cross_validate_counts
    (Example History : Type)
    (fit_fold : Params -> nat -> nat -> list Example -> list Example -> nat -> History)
    (H : list (list nat)) (L : list nat) (D : list Q) (A I : list string) (B : list Q)
    (input_dim k batch_size : nat) (data : list Example) (epochs : nat) :
  let cv := {| param_grid := create_param_grid H L D A I B;
               input_dim := input_dim; k_folds := k; batch_size := batch_size |} in
  let results := cross_validate Example History fit_fold cv data epochs in
  length results = length H * length L * length D * length A * length I * length B
  /\ results.*1 = create_param_grid H L D A I B
  /\ Forall (fun entry =>
               size entry.2 = k
               /\ forall i, is_Some (entry.2 !! i) <-> i < k) results.
Proof.
  intros cv results. subst results. unfold cross_validate. cbn [param_grid k_folds cv].
  split; [|split].
  - rewrite length_map, length_create_param_grid. lia.
  - rewrite <- list_fmap_compose. apply list_fmap_id.
  - apply Forall_fmap, Forall_true. intros params. cbn [snd].
    assert (HF : forall i,
               (let '(train, held_out) := kfold Example k data i in
                (i, fit_fold params (VaeUtils.input_dim cv) (VaeUtils.batch_size cv)
                      train held_out epochs)).1 = i).
    { intros i. now destruct (kfold Example k data i). }
    split.
    + apply (size_indexed_map _ k HF).
    + intros i. apply (dom_indexed_map _ k i HF).
Qed.

End SweepFacts.

(** ** Masks and positions *)

Module MaskFacts.

Import Np.

Lemma boolean_mask_map {A B : Type} (f : A -> B) (mask : list bool) (a : list A) :
  boolean_mask mask (map f a) = map f (boolean_mask mask a).
Proof.
  revert a. induction mask as [|b mask IH]; intros [|x a]; simpl; try reflexivity.
  destruct b; simpl; now rewrite IH.
Qed.

Lemma boolean_mask_invert_perm {A : Type} (mask : list bool) (a : list A) :
  length mask = length a ->
  boolean_mask mask a ++ boolean_mask (invert mask) a ≡ₚ a.
Proof.
  revert a. induction mask as [|b mask IH]; intros [|x a]; simpl; try easy.
  intros [= Hlen]. destruct b; simpl.
  - now rewrite IH.
  - rewrite <- Permutation_middle. now rewrite IH.
Qed.

(** The positions a mask selects from [seq k n]. *)
Lemma elem_of_mask_seq (mask : list bool) (k n i : nat) :
  i ∈ boolean_mask mask (seq k n)
  <-> exists j, i = k + j /\ j < n /\ mask !! j = Some true.
Proof.
  revert k n. induction mask as [|b mask IH]; intros k n.
  - simpl. split; [inversion 1|]. intros (j & _ & _ & Hj). discriminate.
  - destruct n as [|n]; simpl.
    { split; [inversion 1|]. intros (j & _ & Hj & _). lia. }
    assert (Htail : i ∈ boolean_mask mask (seq (S k) n)
                    <-> exists j, i = k + S j /\ S j < S n /\ (b :: mask) !! S j = Some true).
    { rewrite IH. split; intros (j & -> & Hj & Hm); exists j; simpl;
        repeat split; auto; lia. }
    destruct b.
    + rewrite elem_of_cons, Htail. split.
      * intros [->|(j & -> & Hj & Hm)].
        -- exists 0. repeat split; auto; lia.
        -- exists (S j). auto.
      * intros ([|j] & -> & Hj & Hm).
        -- left. lia.
        -- right. exists j. auto.
    + rewrite Htail. split.
      * intros (j & -> & Hj & Hm). exists (S j). auto.
      * intros ([|j] & -> & Hj & Hm); [discriminate|]. exists j. auto.
Qed.

Lemma NoDup_boolean_mask {A : Type} (mask : list bool) (a : list A) :
  NoDup a -> NoDup (boolean_mask mask a).
Proof.
  intros Ha. revert mask. induction Ha as [|x a Hx Ha IH]; intros [|b mask]; simpl;
    try constructor.
  destruct b; [|apply IH].
  constructor; [|apply IH].
  intros Hin. apply Hx. clear -Hin. revert mask Hin.
  induction a as [|y a IHa]; intros [|b mask]; simpl; try (inversion 1; fail).
  destruct b.
  - rewrite !elem_of_cons. intros [->|H]; eauto.
  - rewrite elem_of_cons. eauto.
Qed.

(** Marking in [seq k n] the positions that a mask selected gives the mask
    back. *)
Lemma isin_mask_seq (mask : list bool) (k n : nat) :
  length mask = n ->
  isin (seq k n) (boolean_mask mask (seq k n)) = mask.
Proof.
  intros Hlen. unfold isin. apply list_eq. intros j.
  rewrite list_lookup_fmap.
  destruct (decide (j < n)) as [Hj|Hj].
  - rewrite lookup_seq_lt by exact Hj. simpl.
    destruct (lookup_lt_is_Some_2 mask j ltac:(lia)) as [b Hb]. rewrite Hb. f_equal.
    destruct b.
    + apply bool_decide_eq_true. apply elem_of_mask_seq. eauto.
    + apply bool_decide_eq_false. rewrite elem_of_mask_seq.
      intros (j' & Heq & _ & Hm). assert (j' = j) by lia. subst. congruence.
  - rewrite lookup_seq_ge by lia. simpl. symmetry. apply lookup_ge_None. lia.
Qed.

(** Taking the positions that a mask selects is masking. *)
Lemma take_mask_seq {A : Type} (mask : list bool) (a : list A) (k : nat) :
  take a (boolean_mask mask (seq k (length a - k)))
  = Some (boolean_mask mask (drop k a)).
Proof.
  unfold take. revert k. induction mask as [|b mask IH]; intros k.
  - reflexivity.
  - destruct (decide (k < length a)) as [Hk|Hk].
    + destruct (lookup_lt_is_Some_2 a k Hk) as [x Hx].
      rewrite (drop_S _ _ _ Hx).
      replace (length a - k) with (S (length a - S k)) by lia. simpl.
      destruct b; simpl.
      * rewrite Hx. simpl. rewrite IH. reflexivity.
      * apply IH.
    + replace (length a - k) with 0 by lia. rewrite drop_ge by lia. reflexivity.
Qed.

Lemma take_mask {A : Type} (mask : list bool) (a : list A) :
  take a (boolean_mask mask (seq 0 (length a))) = Some (boolean_mask mask a).
Proof.
  pose proof (take_mask_seq mask a 0) as H.
  now rewrite Nat.sub_0_r, drop_0 in H.
Qed.

Lemma length_boolean_mask {A B : Type} (mask : list bool) (a : list A) (b : list B) :
  length a = length b -> length (boolean_mask mask a) = length (boolean_mask mask b).
Proof.
  revert a b. induction mask as [|m mask IH]; intros [|x a] [|y b]; simpl; try easy.
  intros [= H]. destruct m; simpl; auto.
Qed.

End MaskFacts.

(** ** The data splitter *)

Module UtilsFacts.

Import Tf Np Sklearn Utils MaskFacts.

Lemma condition_indices_take {A : Type} (db : DataFrame) (a : list A) :
  length a = length (rows db) ->
  take a (condition_indices_of db) = Some (spec_train_pool db a).
Proof.
  intros Hlen. unfold condition_indices_of, index, spec_train_pool.
  rewrite <- Hlen. apply take_mask.
Qed.

Lemma test_mask_eq (db : DataFrame) :
  invert (isin (index db) (condition_indices_of db))
  = map (fun r => negb (Z.eqb (dcode r) 0)) (rows db).
Proof.
  unfold condition_indices_of, index. rewrite isin_mask_seq by apply length_map.
  unfold invert. now rewrite map_map.
Qed.

Lemma test_mask_pool {A : Type} (db : DataFrame) (a : list A) :
  boolean_mask (invert (isin (index db) (condition_indices_of db))) a
  = spec_test_pool db a.
Proof.
  unfold spec_test_pool. now rewrite test_mask_eq.
Qed.

Lemma length_concat_axis1 {A : Type} (a b : list (list A)) :
  length a = length b -> length (concat_axis1 a b) = length a.
Proof.
  revert b. induction a as [|r a IH]; intros [|s b]; simpl; try easy.
  intros [= H]. now rewrite IH.
Qed.

Lemma onehot_fit_transform_some {A : Type} (eqb leb : A -> A -> bool) (col : list A) :
  col <> nil ->
  exists m, onehot_fit_transform eqb leb col = Some m /\ length m = length col.
Proof.
  intros Hne. destruct col as [|v col]; [congruence|].
  eexists. split; [reflexivity|]. now rewrite length_map.
Qed.

(** The label matrix exists for a table with a line, one row per line. *)
Lemma labels_of_some (db : DataFrame) :
  rows db <> nil ->
  exists y_data, labels_of db = Some y_data /\ length y_data = length (rows db).
Proof.
  intros Hne. unfold labels_of.
  destruct (onehot_fit_transform_some String.eqb String.leb (map sex (rows db)))
    as (ms & -> & Hms).
  { destruct (rows db); [congruence|discriminate]. }
  destruct (onehot_fit_transform_some Z.eqb Z.leb (map (fun r => round0 (age r)) (rows db)))
    as (ma & -> & Hma).
  { destruct (rows db); [congruence|discriminate]. }
  rewrite length_map in Hms, Hma.
  eexists. split; [reflexivity|].
  unfold to_float. rewrite length_map, length_concat_axis1; congruence.
Qed.

Lemma check_array_to_float (X : list (list Q)) :
  check_array (to_float X) = check_array X.
Proof.
  unfold check_array, to_float. rewrite length_map.
  destruct X as [|r X]; simpl; [reflexivity|]. now rewrite length_map.
Qed.

Lemma check_array_true {A : Type} (X : list (list A)) (d : nat) :
  X <> nil -> d <> 0 -> Forall (fun r => length r = d) X -> check_array X = true.
Proof.
  intros Hne Hd Hall. destruct Hall as [|r X Hr _]; [congruence|].
  unfold check_array. simpl. rewrite Hr. now destruct d.
Qed.

Lemma width_hd {A : Type} (X : list (list A)) (d : nat) :
  X <> nil -> Forall (fun r => length r = d) X -> length (hd nil X) = d.
Proof.
  intros Hne Hall. destruct Hall; [congruence|]. assumption.
Qed.

Lemma fit_some (X : Matrix) :
  check_array X = true ->
  exists scaler,
    fit X = Some scaler
    /\ mean_ scaler = map (fun j => col_mean (column X j)) (seq 0 (length (hd nil X)))
    /\ var_ scaler = map (fun j => col_var (column X j)) (seq 0 (length (hd nil X))).
Proof.
  intros Hc. unfold fit. rewrite Hc. eexists. split; [reflexivity|].
  cbn [mean_ var_]. now rewrite !map_map.
Qed.

Lemma transform_some (scaler : StandardScaler) (X : Matrix) :
  check_array X = true -> length (hd nil X) = length (mean_ scaler) ->
  transform scaler X = Some (scale_rows scaler X).
Proof.
  intros Hc Hw. unfold transform. rewrite Hc, Hw, Nat.eqb_refl. reflexivity.
Qed.

Lemma fit_transform_some (scaler : StandardScaler) (X : Matrix) :
  fit X = Some scaler -> fit_transform X = Some (scaler, scale_rows scaler X).
Proof.
  intros Hfit. unfold fit_transform. rewrite Hfit. cbn.
  unfold fit in Hfit. destruct (check_array X) eqn:Hc; [|discriminate].
  injection Hfit as <-. rewrite transform_some; [reflexivity|exact Hc|].
  cbn [mean_]. now rewrite length_map, length_map, length_seq.
Qed.

Lemma length_mean_fit (scaler : StandardScaler) (X : Matrix) :
  fit X = Some scaler -> length (mean_ scaler) = length (hd nil X).
Proof.
  unfold fit. destruct (check_array X); [|discriminate].
  intros [= <-]. cbn [mean_]. now rewrite length_map, length_map, length_seq.
Qed.

Lemma Forall_boolean_mask {A : Type} (P : A -> Prop) (mask : list bool) (a : list A) :
  Forall P a -> Forall P (boolean_mask mask a).
Proof.
  intros Ha. revert mask. induction Ha as [|x a Hx Ha IH]; intros [|b mask]; simpl;
    try constructor.
  destruct b; [constructor|]; auto.
Qed.

Lemma Forall_to_float_width (X : list (list Q)) (d : nat) :
  Forall (fun r => length r = d) X -> Forall (fun r => length r = d) (to_float X).
Proof.
  unfold to_float. intros H. apply Forall_map. 
  eapply Forall_impl; [exact H|]. intros r Hr. cbn. now rewrite length_map.
Qed.



Lemma pool_nonempty {A B : Type} (mask : list bool) (a : list A) (b : list B) :
  length a = length b -> boolean_mask mask a <> nil -> boolean_mask mask b <> nil.
Proof.
  intros Hlen Ha Hb. apply Ha.
  apply length_zero_iff_nil. rewrite (length_boolean_mask mask a b Hlen), Hb. reflexivity.
Qed.

(** Fitting on the train pool of a table of features and transforming both
    pools, as [generate_data] and [generate_data_thickness_only] do. *)
Lemma scaled_pools (db : DataFrame) (data : list (list Q)) (d : nat) :
  length data = length (rows db) ->
  Forall (fun r => length r = d) data -> d <> 0 ->
  spec_train_pool db (rows db) <> nil -> spec_test_pool db (rows db) <> nil ->
  exists scaler,
    fit (to_float (spec_train_pool db data)) = Some scaler
    /\ take data (condition_indices_of db) = Some (spec_train_pool db data)
    /\ fit_transform (to_float (spec_train_pool db data))
       = Some (scaler, scale_rows scaler (to_float (spec_train_pool db data)))
    /\ transform scaler
         (to_float (boolean_mask (invert (isin (index db) (condition_indices_of db))) data))
       = Some (scale_rows scaler (to_float (spec_test_pool db data))).
Proof.
  intros Hlen Hw Hd Htrain Htest.
  assert (Htrain' : spec_train_pool db data <> nil).
  { eapply pool_nonempty; [|exact Htrain]. congruence. }
  assert (Htest' : spec_test_pool db data <> nil).
  { eapply pool_nonempty; [|exact Htest]. congruence. }
  assert (Hwtrain : Forall (fun r => length r = d) (spec_train_pool db data)).
  { now apply Forall_boolean_mask. }
  assert (Hwtest : Forall (fun r => length r = d) (spec_test_pool db data)).
  { now apply Forall_boolean_mask. }
  assert (Hctrain : check_array (to_float (spec_train_pool db data)) = true).
  { rewrite check_array_to_float. eapply check_array_true; eauto. }
  destruct (fit_some _ Hctrain) as (scaler & Hfit & _).
  exists scaler. split; [exact Hfit|]. split; [now apply condition_indices_take|].
  split; [now apply fit_transform_some|].
  rewrite test_mask_pool. apply transform_some.
  - rewrite check_array_to_float. eapply check_array_true; eauto.
  - rewrite (length_mean_fit _ _ Hfit).
    rewrite (width_hd (to_float (spec_test_pool db data)) d),
            (width_hd (to_float (spec_train_pool db data)) d); auto.
    + unfold to_float. intros H. apply Htrain'. now apply map_eq_nil in H.
    + now apply Forall_to_float_width.
    + unfold to_float. intros H. apply Htest'. now apply map_eq_nil in H.
    + now apply Forall_to_float_width.
Qed.

Lemma rectangular_width (db : DataFrame) :
  rectangular db = true ->
  Forall (fun r => length r = length (columns db)) (drop_named db).
Proof.
  unfold rectangular, drop_named. rewrite forallb_forall. intros H.
  apply Forall_map. apply List.Forall_forall. intros r Hr. cbn.
  apply Nat.eqb_eq. now apply H.
Qed.

Lemma rows_nonempty (db : DataFrame) : spec_train_pool db (rows db) <> nil -> rows db <> nil.
Proof.
  unfold spec_train_pool. intros H Hnil. rewrite Hnil in H. now destruct (map _ _).
Qed.

(** What [generate_data] returns on a table with both pools. *)
Lemma generate_data_run (db : DataFrame) :
  rectangular db = true -> columns db <> nil ->
  spec_train_pool db (rows db) <> nil -> spec_test_pool db (rows db) <> nil ->
  exists y_data scaler,
    labels_of db = Some y_data /\ length y_data = length (rows db)
    /\ fit (to_float (map cells (spec_train_pool db (rows db)))) = Some scaler
    /\ generate_data db
       = Some (scale_rows scaler (to_float (map cells (spec_train_pool db (rows db)))),
               spec_train_pool db y_data,
               scale_rows scaler (to_float (map cells (spec_test_pool db (rows db)))),
               spec_test_pool db y_data).
Proof.
  intros Hrect Hcols Htrain Htest.
  destruct (labels_of_some db (rows_nonempty db Htrain)) as (y_data & Hy & Hylen).
  destruct (scaled_pools db (drop_named db) (length (columns db)))
    as (scaler & Hfit & Htake & Hft & Htr); auto.
  { unfold drop_named. apply length_map. }
  { now apply rectangular_width. }
  { intros H. apply Hcols. now apply length_zero_iff_nil. }
  unfold spec_train_pool, spec_test_pool, drop_named in *.
  rewrite !boolean_mask_map in *.
  exists y_data, scaler. split; [exact Hy|]. split; [exact Hylen|]. split; [exact Hfit|].
  unfold generate_data. rewrite Hy. cbn [mbind option_bind].
  unfold drop_named. rewrite Htake. cbn [mbind option_bind].
  rewrite Hft. cbn [mbind option_bind].
  rewrite !boolean_mask_map. rewrite Htr. cbn [mbind option_bind].
  rewrite (condition_indices_take db y_data Hylen). cbn [mbind option_bind].
  rewrite test_mask_eq. reflexivity.
Qed.

Lemma boolean_mask_filter {A : Type} (f : A -> bool) (l : list A) :
  boolean_mask (map f l) l = List.filter f l.
Proof.
  induction l as [|x l IH]; simpl; [reflexivity|].
  destruct (f x); now rewrite IH.
Qed.

Lemma thickness_width (db : DataFrame) :
  rectangular db = true ->
  Forall (fun r => length r = length (thickness_columns db)) (thickness_data db).
Proof.
  unfold rectangular, thickness_data, thickness_columns.
  rewrite forallb_forall. intros H.
  apply Forall_map. apply List.Forall_forall. intros r Hr. cbn.
  rewrite <- boolean_mask_filter. apply length_boolean_mask.
  apply Nat.eqb_eq. now apply H.
Qed.

Lemma length_scale_rows (scaler : StandardScaler) (X : Matrix) :
  length (scale_rows scaler X) = length X.
Proof. unfold scale_rows. apply length_map. Qed.

Lemma length_to_float (X : list (list Q)) : length (to_float X) = length X.
Proof. unfold to_float. apply length_map. Qed.



Lemma dcode_mask_lookup (db : DataFrame) (f : Z -> bool) (i : nat) :
  i ∈ boolean_mask (map (fun r => f (dcode r)) (rows db)) (index db)
  <-> exists r, rows db !! i = Some r /\ f (dcode r) = true.
Proof.
  unfold index. rewrite elem_of_mask_seq. split.
  - intros (j & -> & Hj & Hm). simpl. rewrite list_lookup_fmap in Hm.
    destruct (rows db !! j) as [r|]; [|discriminate]. exists r. split; [reflexivity|].
    now injection Hm.
  - intros (r & Hr & Hf). exists i. split; [reflexivity|]. split.
    + now apply lookup_lt_Some in Hr.
    + rewrite list_lookup_fmap, Hr. cbn. now rewrite Hf.
Qed.

(** C2: the positions of the train pool are exactly those of the lines
    whose dcode is 0, the positions of the test pool those of all other
    lines; no position is in both and together they are all the positions
    of the table. On a table with both pools [generate_data] returns the
    standardized features of the one and of the other, with the rows of
    the label matrix split by the same two masks. *)
Theorem generate_data_partition (db : DataFrame) :
  let train_idx := condition_indices_of db in
  let test_idx := boolean_mask (invert (isin (index db) train_idx)) (index db) in
  (forall i, i ∈ train_idx <-> exists r, rows db !! i = Some r /\ dcode r = 0%Z)
  /\ (forall i, i ∈ test_idx <-> exists r, rows db !! i = Some r /\ dcode r <> 0%Z)
  /\ (forall i, i ∈ train_idx -> i ∈ test_idx -> False)
  /\ NoDup train_idx /\ NoDup test_idx
  /\ train_idx ++ test_idx ≡ₚ index db
  /\ (rectangular db = true -> columns db <> nil ->
      spec_train_pool db (rows db) <> nil -> spec_test_pool db (rows db) <> nil ->
      exists y_data scaler,
        labels_of db = Some y_data /\ length y_data = length (rows db)
        /\ generate_data db
           = Some (scale_rows scaler (to_float (map cells (spec_train_pool db (rows db)))),
                   spec_train_pool db y_data,
                   scale_rows scaler (to_float (map cells (spec_test_pool db (rows db)))),
                   spec_test_pool db y_data)).
Proof.
  intros train_idx test_idx.
  assert (Htrain : forall i, i ∈ train_idx
                     <-> exists r, rows db !! i = Some r /\ dcode r = 0%Z).
  { intros i. subst train_idx. unfold condition_indices_of.
    rewrite (dcode_mask_lookup db (fun c => Z.eqb c 0)).
    split; intros (r & Hr & Hc); exists r; split; auto; now apply Z.eqb_eq. }
  assert (Htest : forall i, i ∈ test_idx
                    <-> exists r, rows db !! i = Some r /\ dcode r <> 0%Z).
  { intros i. subst test_idx train_idx. rewrite test_mask_eq.
    rewrite (dcode_mask_lookup db (fun c => negb (Z.eqb c 0))).
    split; intros (r & Hr & Hc); exists r; split; auto.
    - apply negb_true_iff in Hc. now apply Z.eqb_neq.
    - apply negb_true_iff. now apply Z.eqb_neq. }
  split; [exact Htrain|]. split; [exact Htest|]. split; [|split; [|split; [|split]]].
  - intros i H1 H2. apply Htrain in H1 as (r & Hr & Hc).
    apply Htest in H2 as (r' & Hr' & Hc'). congruence.
  - apply NoDup_boolean_mask, NoDup_seq.
  - apply NoDup_boolean_mask, NoDup_seq.
  - subst test_idx train_idx. rewrite test_mask_eq. unfold condition_indices_of.
    replace (map (fun r => negb (Z.eqb (dcode r) 0)) (rows db))
      with (invert (map (fun r => Z.eqb (dcode r) 0) (rows db)))
      by (unfold invert; now rewrite map_map).
    apply boolean_mask_invert_perm. unfold index. now rewrite length_map, length_seq.
  - intros Hrect Hcols Hp1 Hp2.
    destruct (generate_data_run db Hrect Hcols Hp1 Hp2) as (y & sc & Hy & Hl & _ & Hg).
    eauto.
Qed.

Lemma generate_data_partition_witness :
  exists y_data scaler,
    labels_of sample_table = Some y_data /\ length y_data = 3
    /\ generate_data sample_table
       = Some (scale_rows scaler
                 (to_float (map cells (spec_train_pool sample_table (rows sample_table)))),
               spec_train_pool sample_table y_data,
               scale_rows scaler
                 (to_float (map cells (spec_test_pool sample_table (rows sample_table)))),
               spec_test_pool sample_table y_data).
Proof.
  apply (generate_data_partition sample_table).
  - reflexivity.
  - discriminate.
  - discriminate.
  - discriminate.
Defined.



End UtilsFacts.

(** ** Further properties of the models *)

Module ModelExtras.

Import Tf Keras VaeModels TfFacts LossFacts LayerFacts EncoderFacts DecoderFacts.
Local Open Scope R_scope.

Lemma sum_list_zero (l : list R) :
  Forall (fun v => 0 <= v) l -> sum_list l = 0 -> Forall (fun v => v = 0) l.
Proof.
  induction 1 as [|x l Hx Hl IH]; simpl; intros Hs; constructor.
  - pose proof (sum_list_nonneg l Hl). lra.
  - apply IH. pose proof (sum_list_nonneg l Hl). lra.
Qed.

Lemma reduce_mean1_zero (l : list R) :
  l <> nil -> reduce_mean1 l = 0 -> sum_list l = 0.
Proof.
  intros Hne H. unfold reduce_mean1 in H.
  assert (Hn : 0 < INR (length l)).
  { apply lt_0_INR. destruct l; [congruence|simpl; lia]. }
  apply Rmult_eq_compat_r with (r := INR (length l)) in H.
  unfold Rdiv in H. rewrite Rmult_assoc, Rinv_l in H; lra.
Qed.

Lemma spec_kl_per_example_zero (m lv : list R) :
  length m = length lv ->
  (spec_kl_per_example m lv = 0
   <-> Forall (fun v => v = 0) m /\ Forall (fun v => v = 0) lv).
Proof.
  unfold spec_kl_per_example. revert lv.
  induction m as [|x m IH]; intros [|v lv]; simpl; try easy.
  - intros _. split; [intros _; split; constructor|intros _; lra].
  - intros [= Hlen].
    assert (Hrest : sum_list (zip_with_R (fun a b => 1 + b - a * a - exp b) m lv) <= 0).
    { pose proof (spec_kl_per_example_nonneg m lv) as H. unfold spec_kl_per_example in H. lra. }
    pose proof (exp_ineq1_le v) as Hexp.
    assert (Hsq : 0 <= x * x) by nra.
    split.
    + intros H0.
      assert (Hx : x * x = 0) by lra.
      assert (Hv : exp v = 1 + v) by lra.
      assert (Hr : -0.5 * sum_list (zip_with_R (fun a b => 1 + b - a * a - exp b) m lv) = 0)
        by lra.
      apply (IH lv Hlen) in Hr as [Hm Hlv].
      split; constructor; auto.
      * nra.
      * destruct (Req_dec_T v 0) as [|Hne]; [assumption|].
        pose proof (exp_ineq1 v Hne). lra.
    + intros [Hm Hlv]. inversion Hm; subst. inversion Hlv; subst.
      assert (Hr : -0.5 * sum_list (zip_with_R (fun a b => 1 + b - a * a - exp b) m lv) = 0).
      { apply (IH lv Hlen). split; assumption. }
      rewrite exp_0. lra.
Qed.

Lemma spec_kl_rows_zero (mu log_var : Matrix) :
  shape mu = shape log_var ->
  (Forall (fun v => v = 0) (spec_kl_rows mu log_var)
   <-> Forall (Forall (fun v => v = 0)) mu /\ Forall (Forall (fun v => v = 0)) log_var).
Proof.
  revert log_var. induction mu as [|m mu IH]; intros [|lv log_var]; simpl; try easy.
  intros [= Hl Hs]. rewrite !Forall_cons_iff, (IH _ Hs), (spec_kl_per_example_zero _ _ Hl).
  tauto.
Qed.

Lemma length_spec_kl_rows (mu log_var : Matrix) :
  shape mu = shape log_var -> length (spec_kl_rows mu log_var) = length mu.
Proof.
  revert log_var. induction mu as [|m mu IH]; intros [|lv log_var]; simpl; try easy.
  intros [= _ Hs]. now rewrite IH.
Qed.

(** X1: for a batch of at least one example, with mean and log-variance
    of one shape, [calc_kl_loss] is zero exactly when every mean and every
    log-variance is zero. *)
Theorem calc_kl_loss_zero_iff (mu log_var : Matrix) :
  mu <> nil -> shape mu = shape log_var ->
  (calc_kl_loss mu log_var = 0
   <-> Forall (Forall (fun v => v = 0)) mu /\ Forall (Forall (fun v => v = 0)) log_var).
Proof.
  intros Hne Hs. rewrite calc_kl_loss_spec, <- (spec_kl_rows_zero _ _ Hs).
  assert (Hrows : spec_kl_rows mu log_var <> nil).
  { intros H. apply (f_equal (@length R)) in H.
    rewrite length_spec_kl_rows in H by exact Hs. destruct mu; [congruence|discriminate]. }
  split.
  - intros H0. apply sum_list_zero; [apply spec_kl_rows_nonneg|].
    now apply reduce_mean1_zero.
  - intros Hall. unfold reduce_mean1.
    assert (Hsum : sum_list (spec_kl_rows mu log_var) = 0).
    { clear -Hall. induction Hall as [|x l Hx _ IH]; simpl; [reflexivity|]. lra. }
    rewrite Hsum. unfold Rdiv. lra.
Qed.

Lemma calc_kl_loss_zero_iff_witness :
  calc_kl_loss ((0 :: 0 :: nil) :: nil) ((0 :: 0 :: nil) :: nil) = 0.
Proof.
  apply calc_kl_loss_zero_iff.
  - discriminate.
  - reflexivity.
  - split; repeat constructor.
Defined.

Lemma selu_fn_lower (x : R) : - (selu_scale * selu_alpha) < selu_fn x.
Proof.
  unfold selu_fn. assert (Hs : 0 < selu_scale) by (unfold selu_scale; lra).
  assert (Ha : 0 < selu_alpha) by (unfold selu_alpha; lra).
  destruct (Rlt_dec 0 x) as [Hx|Hx].
  - assert (0 < selu_scale * x) by nra. assert (0 < selu_scale * selu_alpha) by nra. lra.
  - pose proof (exp_pos x) as He.
    assert (0 < selu_scale * (selu_alpha * exp x)).
    { apply Rmult_lt_0_compat; [exact Hs|]. now apply Rmult_lt_0_compat. }
    lra.
Qed.

Lemma selu_bound_value : -1.7581 < - (selu_scale * selu_alpha).
Proof. unfold selu_scale, selu_alpha. lra. Qed.

(** X2: whatever the weights and the input, every latent mean and every
    latent log-variance returned by the encoder is above
    -selu_scale * selu_alpha, hence above -1.7581. *)
Theorem encoder_latent_bounded_below
    (h : list nat) (l y : nat) (r : Q) (w : VAEEncoder.Weights) (x : Matrix)
    (noise : nat -> nat -> R) :
  let out := VAEEncoder.call (VAEEncoder.__init__ h l y r) w x noise in
  Forall (Forall (fun v => -1.7581 < v)) (VAEEncoder.out_z_mean out)
  /\ Forall (Forall (fun v => -1.7581 < v)) (VAEEncoder.out_z_log_var out).
Proof.
  intros out. subst out. rewrite call_unfold.
  unfold VAEEncoder.out_z_mean, VAEEncoder.out_z_log_var. cbn [fst snd].
  unfold split2_axis1. cbn [fst snd].
  assert (Hrows : Forall (Forall (fun v => -1.7581 < v))
                    (VAEEncoder.latent_of (VAEEncoder.__init__ h l y r) w x)).
  { unfold VAEEncoder.latent_of, dense_call. apply Forall_map, Forall_true. intros row. cbn.
    apply Forall_map, Forall_true. intros v. cbn.
    pose proof (selu_fn_lower v). pose proof selu_bound_value. lra. }
  split; apply Forall_map; (eapply Forall_impl; [exact Hrows|]); intros row Hrow; cbn.
  - now apply Forall_take.
  - now apply Forall_drop.
Qed.



Lemma run_layers_regularizer (a : Activation) (k b : Initializer) (c c' : option Q)
    (h : list nat) ws i (x : Matrix) :
  run_layers
    (map (fun h_dim => {| units := h_dim; activation := a; kernel_initializer := k;
                          bias_initializer := b; kernel_regularizer := c |}) h) ws i x
  = run_layers
      (map (fun h_dim => {| units := h_dim; activation := a; kernel_initializer := k;
                            bias_initializer := b; kernel_regularizer := c' |}) h) ws i x.
Proof.
  revert i x. induction h as [|u h IH]; intros i x; simpl; [reflexivity|].
  rewrite IH. reflexivity.
Qed.

Lemma encoder_call_regularizer h l y (r r' : Q) w x noise :
  VAEEncoder.call (VAEEncoder.__init__ h l y r) w x noise
  = VAEEncoder.call (VAEEncoder.__init__ h l y r') w x noise.
Proof.
  unfold VAEEncoder.call.
  cbn [VAEEncoder.hidden_layers VAEEncoder.latent_layer VAEEncoder.y_layer VAEEncoder.__init__].
  rewrite (run_layers_regularizer selu lecun_normal zeros (Some r) (Some r')).
  reflexivity.
Qed.

Lemma decoder_call_regularizer h o (r r' : Q) w x :
  VAEDecoder.call (VAEDecoder.__init__ h o r) w x
  = VAEDecoder.call (VAEDecoder.__init__ h o r') w x.
Proof.
  rewrite !decoder_call_unfold.
  now rewrite (run_layers_regularizer selu lecun_normal zeros (Some r) (Some r')).
Qed.

(** X4: the l2 coefficients given to the encoder and to the decoder do not
    enter the training step: two models that differ only in them report
    the same losses for a batch and hand the optimizer the same loss
    function, so the step leaves the same weights. *)
Theorem train_step_ignores_l2_reg
    (h : list nat) (l y : nat) (r r' : Q) (hd : list nat) (o : nat) (rd rd' : Q)
    (opt : VAE.Optimizer) (rl yl : Matrix -> Matrix -> R) (kl : Matrix -> Matrix -> Tensor)
    (w : VAE.Weights) (batch_data : Matrix * Matrix) (noise : nat -> nat -> R) :
  VAE.train_step
    (VAE.compile (VAE.__init__ (VAEEncoder.__init__ h l y r) (VAEDecoder.__init__ hd o rd))
       opt rl kl yl) w batch_data noise
  = VAE.train_step
      (VAE.compile (VAE.__init__ (VAEEncoder.__init__ h l y r') (VAEDecoder.__init__ hd o rd'))
         opt rl kl yl) w batch_data noise.
Proof.
  set (m := VAE.compile (VAE.__init__ (VAEEncoder.__init__ h l y r) (VAEDecoder.__init__ hd o rd))
              opt rl kl yl).
  set (m' := VAE.compile
               (VAE.__init__ (VAEEncoder.__init__ h l y r') (VAEDecoder.__init__ hd o rd'))
               opt rl kl yl).
  assert (Hcall : forall v, VAE.call m v batch_data noise = VAE.call m' v batch_data noise).
  { intros v. unfold VAE.call. destruct batch_data as [x yy].
    cbn [m m' VAE.compile VAE.__init__ VAE.encoder VAE.decoder].
    rewrite (encoder_call_regularizer h l y r r').
    destruct (VAEEncoder.call _ _ _ _) as [[[zm zv] z] yh].
    now rewrite (decoder_call_regularizer hd o rd rd'). }
  assert (Hloss : forall v, VAE.taped_losses m rl kl yl batch_data noise v
                            = VAE.taped_losses m' rl kl yl batch_data noise v).
  { intros v. unfold VAE.taped_losses. now rewrite Hcall. }
  unfold VAE.train_step.
  cbn [m m' VAE.compile VAE.reconstruction_loss_fn VAE.kl_loss_fn VAE.y_loss_fn
         VAE.optimizer mbind option_bind].
  fold m m'. rewrite Hloss.
  replace (fun v => (VAE.taped_losses m rl kl yl batch_data noise v).2)
    with (fun v => (VAE.taped_losses m' rl kl yl batch_data noise v).2).
  - reflexivity.
  - apply functional_extensionality. intros v. now rewrite Hloss.
Qed.




















(** X7: [from_config] raises on a dictionary that lacks one of the keys
    it reads, for the encoder, the decoder and the composite model. *)
Theorem from_config_missing_key :
  (forall (config : gmap string CfgVal) (k : string),
      k ∈ ("hidden_dim" :: "latent_dim" :: "y_dim" :: "l2_reg" :: nil)%list ->
      config !! k = None -> VAEEncoder.from_config config = None)
  /\ (forall (config : gmap string CfgVal) (k : string),
      k ∈ ("hidden_dim" :: "output_dim" :: "l2_reg" :: nil)%list ->
      config !! k = None -> VAEDecoder.from_config config = None)
  /\ (forall (config : gmap string (gmap string CfgVal)) (k : string),
      k ∈ ("encoder_config" :: "decoder_config" :: nil)%list ->
      config !! k = None -> VAE.from_config config = None).
Proof.
  split; [|split]; intros config k Hk Hnone.
  - unfold VAEEncoder.from_config.
    repeat (apply elem_of_cons in Hk as [->|Hk]);
      [..|now apply elem_of_nil in Hk]; rewrite Hnone; cbn;
      repeat (match goal with
              | |- context [?c !! ?key ≫= ?f] => destruct (c !! key ≫= f); cbn
              end); reflexivity.
  - unfold VAEDecoder.from_config.
    repeat (apply elem_of_cons in Hk as [->|Hk]);
      [..|now apply elem_of_nil in Hk]; rewrite Hnone; cbn;
      repeat (match goal with
              | |- context [?c !! ?key ≫= ?f] => destruct (c !! key ≫= f); cbn
              end); reflexivity.
  - unfold VAE.from_config.
    repeat (apply elem_of_cons in Hk as [->|Hk]);
      [..|now apply elem_of_nil in Hk]; rewrite Hnone; cbn;
      repeat (match goal with
              | |- context [?c !! ?key ≫= ?f] => destruct (c !! key ≫= f); cbn
              end); reflexivity.
Qed.

Lemma from_config_missing_key_witness :
  VAEEncoder.from_config
    (VAEDecoder.get_config (VAEDecoder.__init__ (100%nat :: nil) 5 (1 # 1000))) = None
  /\ VAEDecoder.from_config
       (VAEEncoder.get_config (VAEEncoder.__init__ (100%nat :: nil) 5 2 (1 # 1000))) = None
  /\ VAE.from_config
       (delete "decoder_config"
          (VAE.get_config
             (VAE.__init__ (VAEEncoder.__init__ (100%nat :: nil) 5 2 (1 # 1000))
                (VAEDecoder.__init__ (100%nat :: nil) 5 (1 # 1000))))) = None.
Proof.
  destruct from_config_missing_key as (He & Hd & Hv).
  split; [|split].
  - apply (He _ "latent_dim"); [|reflexivity].
    apply elem_of_cons. right. apply elem_of_cons. now left.
  - apply (Hd _ "output_dim"); [|reflexivity].
    apply elem_of_cons. right. apply elem_of_cons. now left.
  - apply (Hv _ "decoder_config"); [|reflexivity].
    apply elem_of_cons. right. apply elem_of_cons. now left.
Defined.

(** X8: the model rebuilt by [from_config] from the configuration of any
    model, compiled or not, has no loss functions and no optimizer, and
    its [train_step] raises until it is compiled again. *)
Theorem from_config_is_uncompiled (m : VAE.t) :
  exists m',
    VAE.from_config (VAE.get_config m) = Some m'
    /\ VAE.reconstruction_loss_fn m' = None
    /\ VAE.kl_loss_fn m' = None
    /\ VAE.y_loss_fn m' = None
    /\ VAE.optimizer m' = None
    /\ forall w batch_data noise, VAE.train_step m' w batch_data noise = None.
Proof.
  eexists. split; [apply ConfigFacts.vae_from_get_config|].
  repeat split; reflexivity.
Qed.

End ModelExtras.

(** ** Further properties of the data splitter *)

Module UtilsExtras.

Import Tf Np Sklearn Utils TfFacts MaskFacts UtilsFacts.
Local Open Scope R_scope.

Lemma nth_scale_row (x m s : list R) (j : nat) :
  (j < length x)%nat -> (j < length m)%nat -> (j < length s)%nat ->
  nth j (scale_row x m s) 0 = (nth j x 0 - nth j m 0) / nth j s 0.
Proof.
  revert m s j. induction x as [|v x IH]; intros [|mu m] [|sd s] [|j]; simpl;
    try lia; try reflexivity.
  intros. apply IH; lia.
Qed.

Lemma nth_map_seq {A : Type} (f : nat -> A) (d : nat) (j : nat) (a : A) :
  (j < d)%nat -> nth j (map f (seq 0 d)) a = f j.
Proof.
  intros Hj. rewrite nth_lookup, list_lookup_fmap, lookup_seq_lt by exact Hj. reflexivity.
Qed.

(** A column of the transformed matrix is the column of the input, shifted
    by its mean and divided by its scale. *)
Lemma column_scale_rows (X : Matrix) (scaler : StandardScaler) (d j : nat) :
  fit X = Some scaler -> X <> nil -> Forall (fun r => length r = d) X -> (j < d)%nat ->
  column (scale_rows scaler X) j
  = map (fun v => (v - col_mean (column X j)) / scale_of_var (col_var (column X j)))
      (column X j).
Proof.
  intros Hfit Hne Hw Hj.
  assert (Hd : length (hd nil X) = d) by now apply width_hd.
  unfold fit in Hfit. destruct (check_array X); [|discriminate].
  injection Hfit as <-. rewrite Hd.
  set (mu := col_mean (column X j)). set (sd := scale_of_var (col_var (column X j))).
  unfold column, scale_rows. cbn [mean_ scale_]. rewrite !map_map.
  apply map_ext_Forall. eapply Forall_impl; [exact Hw|]. intros r Hr. cbn in Hr |- *.
  rewrite nth_scale_row.
  - rewrite !nth_map_seq by exact Hj. reflexivity.
  - lia.
  - now rewrite !length_map, length_seq.
  - now rewrite !length_map, length_seq.
Qed.

Lemma sum_list_shift_scale (c : list R) (mu sd : R) :
  sum_list (map (fun v => (v - mu) / sd) c) = (sum_list c - INR (length c) * mu) / sd.
Proof.
  induction c as [|v c IH].
  - simpl. unfold Rdiv. lra.
  - cbn [map sum_list fold_right length]. fold (sum_list (map (fun v => (v - mu) / sd) c)).
    fold (sum_list c). rewrite IH, S_INR. unfold Rdiv. lra.
Qed.

Lemma INR_length_pos {A : Type} (c : list A) : c <> nil -> 0 < INR (length c).
Proof.
  intros Hne. apply lt_0_INR. destruct c; [congruence|simpl; lia].
Qed.

Lemma col_mean_standardized (c : list R) (sd : R) :
  c <> nil -> col_mean (map (fun v => (v - col_mean c) / sd) c) = 0.
Proof.
  intros Hne. unfold col_mean at 1. rewrite sum_list_shift_scale, length_map.
  pose proof (INR_length_pos c Hne) as Hn.
  assert (Hz : sum_list c - INR (length c) * col_mean c = 0).
  { unfold col_mean. field. lra. }
  rewrite Hz. unfold Rdiv. lra.
Qed.





Lemma column_nonempty (X : Matrix) (j : nat) : X <> nil -> column X j <> nil.
Proof. unfold column. destruct X; [congruence|discriminate]. Qed.

Lemma train_features_nonempty (db : DataFrame) :
  spec_train_pool db (rows db) <> nil ->
  to_float (map cells (spec_train_pool db (rows db))) <> nil.
Proof.
  intros H Hnil. apply H. unfold to_float in Hnil.
  apply map_eq_nil in Hnil. now apply map_eq_nil in Hnil.
Qed.

Lemma train_features_width (db : DataFrame) :
  rectangular db = true ->
  Forall (fun r => length r = length (columns db))
    (to_float (map cells (spec_train_pool db (rows db)))).
Proof.
  intros Hrect. apply Forall_to_float_width.
  unfold spec_train_pool. rewrite <- boolean_mask_map.
  apply Forall_boolean_mask. now apply rectangular_width.
Qed.

(** X9: on a table with both pools, every feature column of the train
    matrix returned by [generate_data] has mean zero. *)
Theorem generate_data_train_columns_zero_mean (db : DataFrame) :
  rectangular db = true -> columns db <> nil ->
  spec_train_pool db (rows db) <> nil -> spec_test_pool db (rows db) <> nil ->
  exists train_x train_y test_x test_y,
    generate_data db = Some (train_x, train_y, test_x, test_y)
    /\ forall j, (j < length (columns db))%nat -> col_mean (column train_x j) = 0.
Proof.
  intros Hrect Hcols Hp1 Hp2.
  destruct (generate_data_run db Hrect Hcols Hp1 Hp2) as (y & sc & _ & _ & Hfit & Hg).
  eexists _, _, _, _. split; [exact Hg|]. intros j Hj.
  rewrite (column_scale_rows _ sc (length (columns db)) j Hfit
             (train_features_nonempty db Hp1) (train_features_width db Hrect) Hj).
  apply col_mean_standardized, column_nonempty, train_features_nonempty, Hp1.
Qed.

Lemma generate_data_train_columns_zero_mean_witness :
  exists train_x train_y test_x test_y,
    generate_data sample_table = Some (train_x, train_y, test_x, test_y)
    /\ col_mean (column train_x 0) = 0 /\ col_mean (column train_x 1) = 0.
Proof.
  destruct (generate_data_train_columns_zero_mean sample_table)
    as (a & b & c & d & Hg & Hm).
  - reflexivity.
  - discriminate.
  - discriminate.
  - discriminate.
  - exists a, b, c, d. split; [exact Hg|]. split; apply Hm; simpl; lia.
Defined.



Lemma pool_empty {A B : Type} (mask : list bool) (a : list A) (b : list B) :
  length a = length b -> boolean_mask mask a = nil -> boolean_mask mask b = nil.
Proof.
  intros Hlen Ha. apply length_zero_iff_nil.
  rewrite <- (length_boolean_mask mask a b Hlen), Ha. reflexivity.
Qed.

(** X11: [generate_data] raises when no line has dcode 0, and when every
    line has: the scaler refuses an empty pool. [data_train_test] then
    raises with it. *)
Theorem generate_data_empty_pool (db : DataFrame) :
  spec_train_pool db (rows db) = nil \/ spec_test_pool db (rows db) = nil ->
  generate_data db = None /\ data_train_test db = None.
Proof.
  intros Hpool.
  assert (Hg : generate_data db = None).
  { unfold generate_data. destruct (labels_of db) as [y|]; [|reflexivity].
    cbn [mbind option_bind].
    assert (Hlen : length (drop_named db) = length (rows db)).
    { unfold drop_named. apply length_map. }
    rewrite (condition_indices_take db (drop_named db) Hlen). cbn [mbind option_bind].
    destruct Hpool as [Htrain|Htest].
    - assert (He : spec_train_pool db (drop_named db) = nil).
      { unfold spec_train_pool in *. eapply pool_empty; [|exact Htrain]. congruence. }
      rewrite He. reflexivity.
    - destruct (fit_transform _) as [[sc tr]|]; [|reflexivity]. cbn [mbind option_bind].
      rewrite (test_mask_pool db (drop_named db)).
      assert (He : spec_test_pool db (drop_named db) = nil).
      { unfold spec_test_pool in *. eapply pool_empty; [|exact Htest]. congruence. }
      rewrite He. reflexivity. }
  split; [exact Hg|]. unfold data_train_test. now rewrite Hg.
Qed.

Lemma generate_data_empty_pool_witness :
  let db := {| columns := "lh_bankssts_thickness" :: nil;
               rows := {| age := 30 # 1; sex := "F"; dcode := 0; cells := (25 # 10) :: nil |}
                       :: {| age := 41 # 1; sex := "M"; dcode := 0; cells := (21 # 10) :: nil |}
                       :: nil |} in
  generate_data db = None /\ data_train_test db = None.
Proof.
  intros db. apply generate_data_empty_pool. right. reflexivity.
Defined.

Lemma length_scale_row (x m s : list R) :
  length (scale_row x m s) = Nat.min (length x) (Nat.min (length m) (length s)).
Proof.
  revert m s. induction x as [|v x IH]; intros [|mu m] [|sd s]; simpl; try reflexivity.
  now rewrite IH.
Qed.

Lemma Forall_scale_rows_width (scaler : StandardScaler) (X : Matrix) (d : nat) :
  length (mean_ scaler) = d -> length (scale_ scaler) = d ->
  Forall (fun r => length r = d) X ->
  Forall (fun r => length r = d) (scale_rows scaler X).
Proof.
  intros Hm Hs HX. unfold scale_rows. apply Forall_map.
  eapply Forall_impl; [exact HX|]. intros r Hr. cbn in Hr |- *.
  rewrite length_scale_row. lia.
Qed.

Lemma length_scale_fit (scaler : StandardScaler) (X : Matrix) :
  fit X = Some scaler -> length (scale_ scaler) = length (hd nil X).
Proof.
  unfold fit. destruct (check_array X); [|discriminate].
  intros [= <-]. cbn [scale_]. now rewrite length_map, length_map, length_seq.
Qed.

(** X12: on a table with both pools, the two feature matrices returned by
    [generate_data] have one column per name returned by
    [generate_feature_names], each has as many rows as its label matrix,
    and together they have as many rows as the table has lines. *)
Theorem generate_data_shapes (db : DataFrame) :
  rectangular db = true -> columns db <> nil ->
  spec_train_pool db (rows db) <> nil -> spec_test_pool db (rows db) <> nil ->
  exists train_x train_y test_x test_y,
    generate_data db = Some (train_x, train_y, test_x, test_y)
    /\ Forall (fun r => length r = length (generate_feature_names db)) train_x
    /\ Forall (fun r => length r = length (generate_feature_names db)) test_x
    /\ length train_x = length train_y
    /\ length test_x = length test_y
    /\ (length train_x + length test_x = length (rows db))%nat.
Proof.
  intros Hrect Hcols Hp1 Hp2.
  destruct (generate_data_run db Hrect Hcols Hp1 Hp2) as (y & sc & _ & Hylen & Hfit & Hg).
  eexists _, _, _, _. split; [exact Hg|].
  unfold generate_feature_names.
  assert (Hw : length (hd nil (to_float (map cells (spec_train_pool db (rows db)))))
               = length (columns db)).
  { apply width_hd; [now apply train_features_nonempty|now apply train_features_width]. }
  assert (Hm : length (mean_ sc) = length (columns db)).
  { now rewrite (length_mean_fit _ _ Hfit). }
  assert (Hs : length (scale_ sc) = length (columns db)).
  { now rewrite (length_scale_fit _ _ Hfit). }
  split; [|split; [|split; [|split]]].
  - apply Forall_scale_rows_width; auto. now apply train_features_width.
  - apply Forall_scale_rows_width; auto. apply Forall_to_float_width.
    unfold spec_test_pool. rewrite <- boolean_mask_map.
    apply Forall_boolean_mask. now apply rectangular_width.
  - rewrite length_scale_rows, length_to_float, length_map.
    apply length_boolean_mask. congruence.
  - rewrite length_scale_rows, length_to_float, length_map.
    apply length_boolean_mask. congruence.
  - rewrite !length_scale_rows, !length_to_float, !length_map.
    rewrite <- length_app. unfold spec_train_pool, spec_test_pool.
    replace (map (fun r => negb (Z.eqb (dcode r) 0)) (rows db))
      with (invert (map (fun r => Z.eqb (dcode r) 0) (rows db)))
      by (unfold invert; now rewrite map_map).
    apply Permutation_length, boolean_mask_invert_perm. now rewrite length_map.
Qed.

Lemma generate_data_shapes_witness :
  exists train_x train_y test_x test_y,
    generate_data sample_table = Some (train_x, train_y, test_x, test_y)
    /\ Forall (fun r => length r = 2%nat) train_x
    /\ Forall (fun r => length r = 2%nat) test_x
    /\ length train_x = length train_y
    /\ length test_x = length test_y
    /\ (length train_x + length test_x = 3)%nat.
Proof.
  apply (generate_data_shapes sample_table).
  - reflexivity.
  - discriminate.
  - discriminate.
  - discriminate.
Defined.

Lemma sum_list_app_R (a b : list R) : sum_list (a ++ b) = sum_list a + sum_list b.
Proof.
  induction a as [|x a IH]; simpl.
  - lra.
  - rewrite IH. lra.
Qed.

Section OneHotRows.

Context {A : Type} (eqb leb : A -> A -> bool).
Hypothesis eqb_eq : forall a b, eqb a b = true <-> a = b.
Hypothesis leb_total : forall a b, leb a b = true \/ leb b a = true.
Hypothesis leb_antisym : forall a b, leb a b = true -> leb b a = true -> a = b.
Hypothesis leb_trans : forall a b c, leb a b = true -> leb b c = true -> leb a c = true.

Lemma insert_category_spec (v : A) (cats : list A) :
  StronglySorted (category_lt leb) cats ->
  StronglySorted (category_lt leb) (insert_category eqb leb v cats)
  /\ forall x, In x (insert_category eqb leb v cats) <-> x = v \/ In x cats.
Proof.
  induction 1 as [|c cats Hs IH Hc]; simpl.
  - split; [repeat constructor|]. intros x. simpl. intuition.
  - destruct (eqb v c) eqn:Heq.
    + apply eqb_eq in Heq as ->. split; [now constructor|]. intros x. simpl. intuition.
    + assert (Hne : v <> c) by (intros ->; rewrite (proj2 (eqb_eq c c) eq_refl) in Heq; easy).
      destruct (leb v c) eqn:Hle.
      * split; [|intros x; simpl; intuition].
        constructor; [now constructor|]. constructor; [split; assumption|].
        eapply Forall_impl; [exact Hc|]. intros x [Hcx Hcx']. cbn. split.
        -- eapply leb_trans; eauto.
        -- intros ->. apply Hcx'. now apply leb_antisym.
      * destruct IH as [IHs IHin]. split.
        -- constructor; [exact IHs|]. apply List.Forall_forall. intros x Hx.
           apply IHin in Hx as [->|Hx].
           ++ split; [|congruence]. destruct (leb_total v c) as [H|H]; [congruence|exact H].
           ++ eapply List.Forall_forall in Hc; eauto.
        -- intros x. simpl. rewrite IHin. intuition.
Qed.

Lemma categories_spec (col : list A) :
  StronglySorted (category_lt leb) (categories_ eqb leb col)
  /\ forall x, In x (categories_ eqb leb col) <-> In x col.
Proof.
  unfold categories_. induction col as [|v col [IHs IHin]]; simpl.
  - split; [constructor|tauto].
  - destruct (insert_category_spec v _ IHs) as [Hs Hin]. split; [exact Hs|].
    intros x. rewrite Hin, IHin. intuition.
Qed.

Lemma one_hot_entries (cats : list A) (v : A) :
  Forall (fun q => (q = 0 \/ q = 1)%R) (map Q2R (one_hot eqb cats v)).
Proof.
  unfold one_hot. rewrite map_map. apply Forall_map, Forall_true. intros c. cbn.
  destruct (eqb c v); [right; apply RMicromega.Q2R_1|left; apply RMicromega.Q2R_0].
Qed.

Lemma one_hot_cons (c : A) (cats : list A) (v : A) :
  sum_list (map Q2R (one_hot eqb (c :: cats) v))
  = (if eqb c v then 1 else 0) + sum_list (map Q2R (one_hot eqb cats v)).
Proof.
  unfold one_hot. cbn [map]. unfold sum_list at 1. cbn [fold_right].
  fold (sum_list (map Q2R (map (fun c0 => if eqb c0 v then 1%Q else 0%Q) cats))).
  destruct (eqb c v); [now rewrite RMicromega.Q2R_1|now rewrite RMicromega.Q2R_0].
Qed.

Lemma one_hot_absent (cats : list A) (v : A) :
  ~ In v cats -> sum_list (map Q2R (one_hot eqb cats v)) = 0.
Proof.
  induction cats as [|c cats IH]; [reflexivity|]. intros Hn.
  rewrite one_hot_cons. destruct (eqb c v) eqn:Heq.
  - apply eqb_eq in Heq. subst. exfalso. apply Hn. now left.
  - rewrite IH; [lra|]. intros H. apply Hn. now right.
Qed.

Lemma one_hot_present (cats : list A) (v : A) :
  StronglySorted (category_lt leb) cats -> In v cats -> sum_list (map Q2R (one_hot eqb cats v)) = 1.
Proof.
  induction 1 as [|c cats Hs IH Hc]; [easy|]. intros Hin.
  rewrite one_hot_cons. destruct (eqb c v) eqn:Heq.
  - apply eqb_eq in Heq as ->.
    rewrite one_hot_absent; [lra|].
    intros Hv. eapply List.Forall_forall in Hc; [|exact Hv]. destruct Hc as [_ Hc]. congruence.
  - destruct Hin as [->|Hin].
    + rewrite (proj2 (eqb_eq v v) eq_refl) in Heq. discriminate.
    + rewrite IH by exact Hin. lra.
Qed.

(** A value of the fitted column is encoded with exactly one 1. *)
Lemma one_hot_category_row (col : list A) (v : A) :
  In v col ->
  Forall (fun q => (q = 0 \/ q = 1)%R) (map Q2R (one_hot eqb (categories_ eqb leb col) v))
  /\ sum_list (map Q2R (one_hot eqb (categories_ eqb leb col) v)) = 1.
Proof.
  intros Hin. destruct (categories_spec col) as [Hs Hc]. split.
  - apply one_hot_entries.
  - apply one_hot_present; [exact Hs|]. now apply Hc.
Qed.

End OneHotRows.

Lemma string_leb_trans (a b c : string) :
  String.leb a b = true -> String.leb b c = true -> String.leb a c = true.
Proof.
  unfold String.leb. revert b c.
  induction a as [|x a IH]; intros [|y b] [|z c]; simpl; try easy.
  unfold Ascii.compare.
  destruct (N.compare_spec (Ascii.N_of_ascii x) (Ascii.N_of_ascii y)) as [Hxy|Hxy|Hxy];
  destruct (N.compare_spec (Ascii.N_of_ascii y) (Ascii.N_of_ascii z)) as [Hyz|Hyz|Hyz];
  destruct (N.compare_spec (Ascii.N_of_ascii x) (Ascii.N_of_ascii z)) as [Hxz|Hxz|Hxz];
    try easy; try lia.
  apply IH.
Qed.

Lemma concat_axis1_map {A B : Type} (f g : A -> list B) (l : list A) :
  concat_axis1 (map f l) (map g l) = map (fun a => f a ++ g a) l.
Proof.
  induction l as [|a l IH]; simpl; [reflexivity|]. now rewrite IH.
Qed.

Lemma labels_of_rows (db : DataFrame) :
  rows db <> nil ->
  exists y_data,
    labels_of db = Some y_data
    /\ length y_data = length (rows db)
    /\ Forall (fun row => Forall (fun v => v = 0 \/ v = 1) row /\ sum_list row = 2) y_data.
Proof.
  intros Hne. unfold labels_of, onehot_fit_transform.
  destruct (rows db) as [|r0 rs] eqn:Hrows; [congruence|].
  rewrite <- Hrows. 
  assert (Hs : map sex (rows db) <> nil) by (rewrite Hrows; discriminate).
  assert (Ha : map (fun r => round0 (age r)) (rows db) <> nil) by (rewrite Hrows; discriminate).
  destruct (map sex (rows db)) as [|s0 ss] eqn:Hsex; [congruence|].
  destruct (map (fun r => round0 (age r)) (rows db)) as [|a0 aa] eqn:Hage; [congruence|].
  cbn [mbind option_bind]. rewrite <- Hsex, <- Hage.
  eexists. split; [reflexivity|].
  rewrite !map_map, concat_axis1_map. unfold to_float. rewrite map_map. split.
  - apply length_map.
  - apply Forall_map, List.Forall_forall. intros r Hr. cbn.
    rewrite map_app, sum_list_app_R.
    destruct (one_hot_category_row Z.eqb Z.leb Z.eqb_eq) with
      (col := map (fun r => round0 (age r)) (rows db)) (v := round0 (age r))
      as [Hae Has].
    { intros a b. lia. }
    { intros a b. rewrite !Z.leb_le. lia. }
    { intros a b c. rewrite !Z.leb_le. lia. }
    { apply in_map_iff. eauto. }
    destruct (one_hot_category_row String.eqb String.leb String.eqb_eq) with
      (col := map sex (rows db)) (v := sex r) as [Hse Hss].
    { apply String.leb_total. }
    { apply String.leb_antisym. }
    { apply string_leb_trans. }
    { apply in_map_iff. eauto. }
    split.
    + apply Forall_app. split; assumption.
    + rewrite Has, Hss. lra.
Qed.

















Lemma substring_all (s : string) : substring 0 (String.length s) s = s.
Proof.
  induction s as [|c s IH]; simpl; [reflexivity|]. now rewrite IH.
Qed.

Lemma substring_append_skip (p s : string) (k : nat) :
  substring (String.length p) k (p ++ s)%string = substring 0 k s.
Proof.
  induction p as [|c p IH]; simpl; [reflexivity|]. exact IH.
Qed.

Lemma length_string_append (p s : string) :
  String.length (p ++ s)%string = (String.length p + String.length s)%nat.
Proof.
  induction p as [|c p IH]; simpl; [reflexivity|]. now rewrite IH.
Qed.

Lemma substring_split (s : string) (m k : nat) :
  (m + k = String.length s)%nat ->
  s = (substring 0 m s ++ substring m k s)%string.
Proof.
  revert m k. induction s as [|c s IH]; intros m k; simpl.
  - intros H. assert (m = 0%nat) by lia. assert (k = 0%nat) by lia. now subst.
  - destruct m as [|m]; simpl.
    + intros H. destruct k as [|k]; [lia|].
      injection H as H. subst k. now rewrite substring_all.
    + intros H.
      change (String c s = String c (substring 0 m s ++ substring m k s)%string).
      f_equal. apply IH. lia.
Qed.

Lemma endswith_iff (col suffix : string) :
  endswith col suffix = true <-> exists p, col = (p ++ suffix)%string.
Proof.
  unfold endswith. rewrite andb_true_iff, Nat.leb_le, String.eqb_eq. split.
  - intros [Hle Hsub].
    exists (substring 0 (String.length col - String.length suffix) col).
    rewrite <- Hsub at 2. apply substring_split. lia.
  - intros [p ->]. rewrite length_string_append. split; [lia|].
    replace (String.length p + String.length suffix - String.length suffix)%nat
      with (String.length p) by lia.
    rewrite substring_append_skip. apply substring_all.
Qed.

(** X17: the column names returned for the thickness data are, in the
    order of the table, exactly the column names made of some prefix and
    [_thickness]; the data has one row per line of the table, and in a
    table with one cell per column every row has one value per returned
    name. *)
Theorem thickness_columns_selected (db : DataFrame) :
  (forall c, In c (thickness_columns db)
             <-> In c (columns db) /\ exists p, c = (p ++ "_thickness")%string)
  /\ sublist (thickness_columns db) (columns db)
  /\ length (thickness_data db) = length (rows db)
  /\ (rectangular db = true ->
      Forall (fun r => length r = length (thickness_columns db)) (thickness_data db)).
Proof.
  split; [|split; [|split]].
  - intros c. unfold thickness_columns. rewrite filter_In, endswith_iff. reflexivity.
  - unfold thickness_columns. induction (columns db) as [|c cs IH]; simpl.
    + constructor.
    + destruct (endswith c "_thickness"); [now apply sublist_skip|now apply sublist_cons].
  - unfold thickness_data. apply length_map.
  - apply thickness_width.
Qed.

Lemma thickness_columns_selected_witness :
  thickness_columns sample_table = ("lh_bankssts_thickness" :: nil)%list
  /\ Forall (fun r => length r = 1%nat) (thickness_data sample_table).
Proof.
  destruct (thickness_columns_selected sample_table) as (_ & _ & _ & Hw).
  split; [reflexivity|]. apply Hw. reflexivity.
Defined.

(** X18: a label row sums to 2 and a row of the encoder's class
    prediction sums to 1, so on a table with a line no row of the prediction
    of an encoder with at least one class equals any row of the label
    matrix. *)
Theorem prediction_never_equals_label
    (db : DataFrame) (h : list nat) (l y : nat) (r : Q)
    (w : VaeModels.VAEEncoder.Weights) (x : Matrix) (noise : nat -> nat -> R) :
  rows db <> nil -> (1 <= y)%nat ->
  exists y_data,
    labels_of db = Some y_data
    /\ Forall (fun label =>
                 Forall (fun row => row <> label)
                   (VaeModels.VAEEncoder.out_y
                      (VaeModels.VAEEncoder.call
                         (VaeModels.VAEEncoder.__init__ h l y r) w x noise)))
         y_data.
Proof.
  intros Hrows Hy. destruct (labels_of_rows db Hrows) as (y_data & Hlab & _ & Hall).
  exists y_data. split; [exact Hlab|].
  eapply Forall_impl; [exact Hall|]. intros label [_ Hsum]. cbv beta.
  rewrite EncoderFacts.call_unfold. unfold VaeModels.VAEEncoder.out_y. cbn [snd].
  unfold Keras.dense_call. apply Forall_map, Forall_true. intros v. cbv beta.
  change (Keras.softmax_fn
            (Keras.affine
               (VaeModels.VAEEncoder.y_layer (VaeModels.VAEEncoder.__init__ h l y r))
               (VaeModels.VAEEncoder.y_w w) v) <> label).
  destruct (DecoderFacts.softmax_fn_simplex
              (Keras.affine
                 (VaeModels.VAEEncoder.y_layer (VaeModels.VAEEncoder.__init__ h l y r))
                 (VaeModels.VAEEncoder.y_w w) v)) as (_ & _ & _ & Hone).
  rewrite LayerFacts.length_affine in Hone.
  intros Heq. rewrite Heq in Hone. specialize (Hone Hy). lra.
Qed.

Lemma prediction_never_equals_label_witness :
  let dw := {| Keras.kernel := fun _ _ => 0; Keras.bias := fun _ => 0 |} in
  let w := {| VaeModels.VAEEncoder.hidden_w := fun _ => dw;
              VaeModels.VAEEncoder.y_w := dw; VaeModels.VAEEncoder.latent_w := dw |} in
  exists y_data,
    labels_of sample_table = Some y_data
    /\ Forall (fun label =>
                 Forall (fun row => row <> label)
                   (VaeModels.VAEEncoder.out_y
                      (VaeModels.VAEEncoder.call
                         (VaeModels.VAEEncoder.__init__ nil 2 4 (1 # 1000)) w
                         ((1 :: 2 :: nil) :: nil) (fun _ _ => 0))))
         y_data.
Proof.
  intros dw w.
  apply (prediction_never_equals_label sample_table nil 2 4 (1 # 1000) w).
  - discriminate.
  - lia.
Defined.

End UtilsExtras.
